(** * jaraco.desktop.wallpaper

    A shallow embedding of [src/jaraco/desktop/wallpaper.py]: the disk space
    check, the metadata fetch, the image download, the platform dispatch of
    the wallpaper setter and the driver [set_random_wallpaper].

    Python integers are [Z]; [str] and [bytes] are [string]; Python floats
    are IEEE binary64 values, kept as a mantissa and a binary exponent; the
    operating system, the network and the HTML parser are read through a
    [world] record; printing, network access, file writes and process
    launches are recorded in an event trace; exceptions are values of
    [exn], and [try]/[except] is written out with [try_except].

    The module namespace is a [gmap] from names to objects, filled in the
    order of the module body, so that the two lookups by platform name
    ([globals().get] at line 62, [globals()[...]] at line 169) run against
    the names bound at that point. *)

From Stdlib Require Import ZArith Lia Bool Ascii String List DecimalString.
From stdpp Require Import gmap strings list.

Local Open Scope Z_scope.

(** ** Binary64 arithmetic, as used by [free / total * 100] and [round] *)

(** A Python float that is not a NaN: [Finite m e] is the number [m * 2^e]. *)
Inductive pyfloat :=
  | Finite (m e : Z)
  | Infinity (neg : bool).

(** [2^k] for [k >= 0] and 1 below: a ratio is scaled by [2^e] with
    [pow2 e] on one side and [pow2 (- e)] on the other. *)
Definition pow2 (k : Z) : Z := 2 ^ Z.max 0 k.

(** Nearest integer to [n / d] ([0 < d]), ties to the even neighbour. *)
Definition rne_div (n d : Z) : Z :=
  let q := n / d in
  let r := n mod d in
  match 2 * r ?= d with
  | Lt => q
  | Gt => q + 1
  | Eq => if Z.even q then q else q + 1
  end.

(** [2^k <= n / d], for [0 < d]. *)
Definition ratio_ge_pow2 (n d k : Z) : bool := d * pow2 k <=? n * pow2 (- k).

(** [floor (log2 (n / d))] for [0 < n] and [0 < d]. *)
Definition ilog2_ratio (n d : Z) : Z :=
  let l := Z.log2 n - Z.log2 d in
  if ratio_ge_pow2 n d l then l else l - 1.

(** The binary64 number nearest to [n / d] ([0 < d]): 53 bits of mantissa,
    least exponent -1074 (subnormal numbers), ties to even, and infinity
    from [2^1024] on. *)
Definition round_ratio (n d : Z) : pyfloat :=
  if n =? 0 then Finite 0 0 else
  let e := Z.max (ilog2_ratio (Z.abs n) d - 52) (-1074) in
  let m := rne_div (n * pow2 (- e)) (d * pow2 e) in
  if pow2 1024 * pow2 (- e) <=? Z.abs m * pow2 e
  then Infinity (m <? 0)
  else Finite m e.

(** [float(k)]. *)
Definition float_of_int (k : Z) : pyfloat := round_ratio k 1.

(** [x * y] on floats; a zero times an infinity does not occur here and is
    left as an infinity. *)
Definition float_mul (x y : pyfloat) : pyfloat :=
  match x, y with
  | Finite m1 e1, Finite m2 e2 =>
      let e := e1 + e2 in
      round_ratio (m1 * m2 * pow2 e) (pow2 (- e))
  | Finite m _, Infinity s | Infinity s, Finite m _ => Infinity (xorb s (m <? 0))
  | Infinity s1, Infinity s2 => Infinity (xorb s1 s2)
  end.

(** ** Strings *)

(** [str(n)] for an integer. *)
Definition str_of_int (n : Z) : string := NilZero.string_of_int (Z.to_int n).

(** [s.split(sep)] for a separator of one character. *)
Fixpoint split (sep : ascii) (s : string) : list string :=
  match s with
  | EmptyString => [EmptyString]
  | String c rest =>
      if Ascii.eqb c sep then EmptyString :: split sep rest
      else match split sep rest with
           | [] => [String c EmptyString]
           | x :: xs => String c x :: xs
           end
  end.

(** [pat in s]. *)
Fixpoint contains (pat s : string) : bool :=
  String.prefix pat s ||
  match s with
  | EmptyString => false
  | String _ rest => contains pat rest
  end.

Definition startswith (pre s : string) : bool := String.prefix pre s.

Fixpoint endswith_char (c : ascii) (s : string) : bool :=
  match s with
  | EmptyString => false
  | String a EmptyString => Ascii.eqb a c
  | String _ rest => endswith_char c rest
  end.

(** [b''.join(parts)]. *)
Definition join_bytes (parts : list string) : string :=
  fold_right String.append EmptyString parts.

Definition newline : ascii := "010"%char.

(** The lines a response yields when iterated: each ends with its newline,
    except possibly the last. *)
Fixpoint readlines (s : string) : list string :=
  match s with
  | EmptyString => []
  | String c rest =>
      if Ascii.eqb c newline then String c EmptyString :: readlines rest
      else match readlines rest with
           | [] => [String c EmptyString]
           | l :: ls => String c l :: ls
           end
  end.

(** [posixpath.join(a, b)]. *)
Definition posixpath_join (a b : string) : string :=
  if startswith "/" b then b
  else if String.eqb a EmptyString || endswith_char "/"%char a then a +:+ b
  else a +:+ "/" +:+ b.

(** ** Exceptions, events and the effect monad *)

Inductive exn :=
  | SystemExit (code : Z)
  | OSError (msg : string)
  | URLError (reason : string)
  | HTTPError (code : Z)
  | HTMLParseError (msg : string)
  | CalledProcessError (returncode : Z)
  | ZeroDivisionError
  | OverflowError
  | TypeError (msg : string)
  | KeyError (key : string)
  | ValueError (msg : string).

(** [except OSError]: [URLError] and [HTTPError] are subclasses of it. *)
Definition is_OSError (e : exn) : bool :=
  match e with
  | OSError _ | URLError _ | HTTPError _ => true
  | _ => false
  end.

Inductive result (A : Type) :=
  | Ok (a : A)
  | Raise (e : exn).
Arguments Ok {A} a.
Arguments Raise {A} e.

Inductive event :=
  | Print (s : string)
  | UrlOpen (url : string)
  | Parse (content : string)
  | OpenWrite (path : string)
  | WriteBytes (path data : string)
  | Popen (cmd : list string)
  | CheckCall (cmd : list string)
  | SystemParametersInfo (action param : Z) (path : string) (flags : Z).

(** A computation: the events it emitted, in order, and how it ended. *)
Definition io (A : Type) : Type := list event * result A.

Definition ret {A} (a : A) : io A := ([], Ok a).
Definition raise {A} (e : exn) : io A := ([], Raise e).
Definition emit (ev : event) : io unit := ([ev], Ok tt).
Definition lift {A} (r : result A) : io A := ([], r).

Definition bind {A B} (m : io A) (k : A -> io B) : io B :=
  match m with
  | (t, Ok a) => let (t', r) := k a in (t ++ t', r)
  | (t, Raise e) => (t, Raise e)
  end.

(** [try: m  except <handler>]: the handler returns [None] for an exception
    it does not catch. *)
Definition try_except {A} (m : io A) (handler : exn -> option (io A)) : io A :=
  match m with
  | (t, Ok a) => (t, Ok a)
  | (t, Raise e) =>
      match handler e with
      | Some h => let (t', r) := h in (t ++ t', r)
      | None => (t, Raise e)
      end
  end.

Notation "'let*' x ':=' m 'in' k" := (bind m (fun x => k))
  (at level 10, x pattern, k at level 200).
Notation "m ';;' k" := (bind m (fun _ => k))
  (at level 100, k at level 200, right associativity).

Definition print (s : string) : io unit := emit (Print s).

(** The exit status of the interpreter: the code of a [SystemExit], 1 for
    any other uncaught exception, 0 on normal termination. *)
Definition exit_status {A} (r : result A) : Z :=
  match r with
  | Ok _ => 0
  | Raise (SystemExit c) => c
  | Raise _ => 1
  end.

(** ** The world outside the module *)

Record statvfs_result := {
  f_bsize : Z;
  f_bfree : Z;
  f_blocks : Z
}.

(** An open HTTP response: what reading its body to the end gives. *)
Record response := { read : result string }.

(** What [BeautifulSoup(content, 'html.parser')] gives: [find_meta n] is
    [soup.find("meta", {"name": n})], the attributes of the first such tag. *)
Record soup := { find_meta : string -> option (gmap string string) }.

Record world := {
  sys_platform : string;
  (** [os.path.expanduser] and [os.path.join] of the platform *)
  os_path_expanduser : string -> string;
  os_path_join : string -> string -> string;
  (** [os.statvfs] *)
  os_statvfs : string -> result statvfs_result;
  (** [GetDiskFreeSpaceExW]: [None] when the call returns 0, otherwise the
      total and the free byte counts it stores *)
  GetDiskFreeSpaceEx : string -> option (Z * Z);
  (** [urllib.request.urlopen(url)] *)
  urlopen : string -> result response;
  (** the HTML parser *)
  BeautifulSoup : string -> result soup;
  (** [open(path, "wb")] and [write] on the file *)
  open_wb : string -> result unit;
  write_file : string -> string -> result unit;
  (** [subprocess.Popen(cmd)] and the return code of a command run to its end *)
  subprocess_Popen : list string -> result unit;
  subprocess_call : list string -> result Z
}.

(** The module constants [picture_dir], [free_space_minimum], [base_url]. *)
Record settings := {
  picture_dir : string;
  free_space_minimum : Z;
  base_url : string
}.

Definition default_settings (w : world) : settings :=
  {| picture_dir := os_path_expanduser w "~/Pictures/NatGeoPics";
     free_space_minimum := 25;
     base_url := "http://photography.nationalgeographic.com/photography/photo-of-the-day" |}.

(** ** Disk space *)

Definition _get_free_bytes_win32 (w : world) (dir : string) : io (Z * Z) :=
  match GetDiskFreeSpaceEx w dir with
  | None => raise (OSError "GetDiskFreeSpace failed")
  | Some (total_bytes, free_bytes) => ret (free_bytes, total_bytes)
  end.

Definition _get_free_bytes_default (w : world) (dir : string) : io (Z * Z) :=
  let* stat := lift (os_statvfs w dir) in
  let free_bytes := f_bsize stat * f_bfree stat in
  let total_bytes := f_bsize stat * f_blocks stat in
  ret (free_bytes, total_bytes).

(** ** The module namespace and the platform dispatch *)

(** The objects [globals()] holds: the five platform functions, and
    everything else. *)
Inductive pyobj :=
  | Fn_get_free_bytes_win32
  | Fn_get_free_bytes_default
  | Fn_set_wallpaper_linux
  | Fn_set_wallpaper_win32
  | Fn_set_wallpaper_darwin
  | Other.

Definition bind_names (names : list string) (v : pyobj)
    (g : gmap string pyobj) : gmap string pyobj :=
  foldr (fun k acc => <[k := v]> acc) g names.

(** The namespace when line 62 runs. *)
Definition globals_at_get_free_bytes : gmap string pyobj :=
  <["_get_free_bytes_default" := Fn_get_free_bytes_default]>
  (<["_get_free_bytes_win32" := Fn_get_free_bytes_win32]>
  (bind_names
     ["__name__"; "__doc__"; "__package__"; "__loader__"; "__spec__";
      "__file__"; "__builtins__"; "os"; "sys"; "ctypes"; "subprocess";
      "collections"; "urllib"; "html"; "BeautifulSoup";
      "picture_dir"; "free_space_minimum"; "base_url"] Other ∅)).

(** The namespace when line 169 runs. *)
Definition globals_at_set_wallpaper (get_free_bytes : pyobj) : gmap string pyobj :=
  <["_set_wallpaper_darwin" := Fn_set_wallpaper_darwin]>
  (<["_set_wallpaper_win32" := Fn_set_wallpaper_win32]>
  (<["_set_wallpaper_linux" := Fn_set_wallpaper_linux]>
  (bind_names
     ["free_space"; "URLDetail"; "get_wallpaper_details"; "download_wallpaper"]
     Other
  (<["_get_free_bytes" := get_free_bytes]> globals_at_get_free_bytes)))).

(** [d.get(k, default)] and [d[k]]. *)
Definition dict_get (d : gmap string pyobj) (k : string) (dflt : pyobj) : pyobj :=
  default dflt (d !! k).

Definition dict_getitem (d : gmap string pyobj) (k : string) : result pyobj :=
  match d !! k with
  | Some v => Ok v
  | None => Raise (KeyError k)
  end.

(** The two names the module binds by platform. *)
Record module := {
  _get_free_bytes : pyobj;
  set_wallpaper : pyobj
}.

(** Running the module body up to line 169. *)
Definition load_module (platform : string) : result module :=
  let gfb := dict_get globals_at_get_free_bytes
               ("_get_free_bytes_" +:+ platform) Fn_get_free_bytes_default in
  match dict_getitem (globals_at_set_wallpaper gfb) ("_set_wallpaper_" +:+ platform) with
  | Ok sw => Ok {| _get_free_bytes := gfb; set_wallpaper := sw |}
  | Raise e => Raise e
  end.

Definition not_callable {A} : io A := raise (TypeError "object is not callable").

Definition call_get_free_bytes (f : pyobj) (w : world) (dir : string) : io (Z * Z) :=
  match f with
  | Fn_get_free_bytes_win32 => _get_free_bytes_win32 w dir
  | Fn_get_free_bytes_default => _get_free_bytes_default w dir
  | _ => not_callable
  end.

(** ** [free_space] *)

(** What [free_space] returns: [False] or an [int]. *)
Inductive pyval :=
  | PyFalse
  | PyInt (n : Z).

(** [not v] is [negb (truthy v)]. *)
Definition truthy (v : pyval) : bool :=
  match v with
  | PyFalse => false
  | PyInt n => negb (n =? 0)
  end.

(** [v <= n]; [False] compares as 0. *)
Definition py_le (v : pyval) (n : Z) : bool :=
  match v with
  | PyFalse => 0 <=? n
  | PyInt k => k <=? n
  end.

(** [a / b] on integers: the float nearest to the quotient. *)
Definition int_truediv (a b : Z) : result pyfloat :=
  if b =? 0 then Raise ZeroDivisionError
  else match round_ratio (a * Z.sgn b) (Z.abs b) with
       | Infinity _ => Raise OverflowError
       | x => Ok x
       end.

(** [round(x)]: the nearest integer, ties to even. *)
Definition py_round (x : pyfloat) : result Z :=
  match x with
  | Finite m e => Ok (rne_div (m * pow2 e) (pow2 (- e)))
  | Infinity _ => Raise OverflowError
  end.

Definition free_space (m : module) (w : world) (dir : string) : io pyval :=
  let* r := try_except
              (let* ft := call_get_free_bytes (_get_free_bytes m) w dir in ret (Some ft))
              (fun e => if is_OSError e then Some (ret None) else None) in
  match r with
  | None => ret PyFalse
  | Some (free, total) =>
      let* q := lift (int_truediv free total) in
      let percen_free := float_mul q (float_of_int 100) in
      let* n := lift (py_round percen_free) in
      ret (PyInt n)
  end.

(** ** [get_wallpaper_details] *)

(** What [get_wallpaper_details] returns: [False] or a [URLDetail]. *)
Inductive details :=
  | NoDetails
  | URLDetail (url title : string).

Definition marker : string := "document.write".

(** The lines of the body that are kept, joined. *)
Definition sanitize (body : string) : string :=
  join_bytes (List.filter (fun line => negb (contains marker line)) (readlines body)).

(** [tag['content']] for the result of [soup.find]. *)
Definition content_of (tag : option (gmap string string)) : io string :=
  match tag with
  | None => raise (TypeError "'NoneType' object is not subscriptable")
  | Some attrs =>
      match attrs !! "content" with
      | Some v => ret v
      | None => raise (KeyError "content")
      end
  end.

Definition get_wallpaper_details (w : world) (base_url : string) : io details :=
  let* res := try_except
                (emit (UrlOpen base_url);;
                 let* res := lift (urlopen w base_url) in ret (Some res))
                (fun e => match e with
                          | URLError _ | HTTPError _ => Some (ret None)
                          | _ => None
                          end) in
  match res with
  | None => ret NoDetails
  | Some res =>
      let* body := lift (read res) in
      let content := sanitize body in
      let* soup := try_except
                     (emit (Parse content);; lift (BeautifulSoup w content))
                     (fun e => match e with
                               | HTMLParseError msg =>
                                   Some (print msg;; raise (SystemExit 4))
                               | _ => None
                               end) in
      let* url := content_of (find_meta soup "twitter:image:src") in
      let* title := content_of (find_meta soup "twitter:title") in
      ret (URLDetail url title)
  end.

(** ** [download_wallpaper] *)

(** The path [download_wallpaper] computes before it fetches anything. *)
Definition outpath_of (w : world) (url picture_dir filename : string) : string :=
  let filename := filename +:+ "." +:+ List.last (split "."%char url) EmptyString in
  os_path_join w picture_dir filename.

Definition download_wallpaper (w : world) (url picture_dir filename : string)
    : io string :=
  let outpath := outpath_of w url picture_dir filename in
  try_except
    (emit (UrlOpen url);;
     let* f := lift (urlopen w url) in
     print ("Downloading " +:+ url);;
     emit (OpenWrite outpath);;
     lift (open_wb w outpath);;
     let* data := lift (read f) in
     emit (WriteBytes outpath data);;
     lift (write_file w outpath data))
    (fun e => match e with
              | HTTPError code =>
                  Some (print ("HTTP Error: " +:+ str_of_int code +:+ " " +:+ url))
              | URLError reason =>
                  Some (print ("URL Error: " +:+ reason +:+ " " +:+ url))
              | _ => None
              end);;
  ret outpath.

(** ** The wallpaper setters *)

Definition _set_wallpaper_linux (w : world) (filename : string) : io unit :=
  let cmd := ["gconftool-2"; "-t"; "str"; "--set";
              "/desktop/gnome/background/picture_filename"; filename] in
  emit (Popen cmd);;
  lift (subprocess_Popen w cmd).

Definition _set_wallpaper_win32 (w : world) (filename : string) : io unit :=
  let SPI_SETDESKWALLPAPER := 0x14 in
  let SPIF_UPDATEINIFILE := 0x1 in
  let SPIF_SENDWININICHANGE := 0x2 in
  emit (SystemParametersInfo SPI_SETDESKWALLPAPER 0 filename
          (Z.lor SPIF_UPDATEINIFILE SPIF_SENDWININICHANGE)).

Definition dquote : string := String "034"%char EmptyString.

Definition _set_wallpaper_darwin (w : world) (filename : string) : io unit :=
  let cmd := ["defaults"; "write"; "com.apple.desktop"; "Background";
              "{default = {ImageFilePath = " +:+ dquote +:+ filename +:+ dquote
                +:+ "; };}"] in
  emit (CheckCall cmd);;
  let* rc := lift (subprocess_call w cmd) in
  if rc =? 0 then ret tt else raise (CalledProcessError rc).

Definition call_set_wallpaper (f : pyobj) (w : world) (filename : string) : io unit :=
  match f with
  | Fn_set_wallpaper_linux => _set_wallpaper_linux w filename
  | Fn_set_wallpaper_win32 => _set_wallpaper_win32 w filename
  | Fn_set_wallpaper_darwin => _set_wallpaper_darwin w filename
  | _ => not_callable
  end.

(** ** The driver *)

Definition set_random_wallpaper (m : module) (w : world) (cfg : settings) : io unit :=
  let* fs := free_space m w (picture_dir cfg) in
  if negb (truthy fs) then
    print (picture_dir cfg +:+ " does not exist, please create.");;
    raise (SystemExit 1)
  else if py_le fs (free_space_minimum cfg) then
    print ("Not enough free space in " +:+ picture_dir cfg +:+ "! ("
             +:+ match fs with PyFalse => "False" | PyInt n => str_of_int n end
             +:+ "% free)");;
    raise (SystemExit 2)
  else
    let* d := get_wallpaper_details w (base_url cfg) in
    match d with
    | NoDetails => raise (TypeError "cannot unpack non-iterable bool object")
    | URLDetail url title =>
        if String.eqb url EmptyString then
          print "No wallpaper URL found.";;
          raise (SystemExit 3)
        else
          let* filename := download_wallpaper w url (picture_dir cfg) title in
          call_set_wallpaper (set_wallpaper m) w filename
    end.

(** Running the module as a script: the module body, then the driver. *)
Definition main (w : world) (cfg : settings) : io unit :=
  let* m := lift (load_module (sys_platform w)) in
  set_random_wallpaper m w cfg.

(** The events that reach the network. *)
Definition is_network (ev : event) : bool :=
  match ev with
  | UrlOpen _ => true
  | _ => false
  end.

(** ** What the operating system answers to the free-space query *)

(** The query of the module's [_get_free_bytes] fails with an [OSError]. *)
Definition free_space_query_fails (m : module) (w : world) (dir : string) : Prop :=
  match _get_free_bytes m with
  | Fn_get_free_bytes_win32 => GetDiskFreeSpaceEx w dir = None
  | Fn_get_free_bytes_default =>
      exists e, os_statvfs w dir = Raise e /\ is_OSError e = true
  | _ => False
  end.

(** The query reports [F] free bytes out of [T]. *)
Definition free_space_query_reports (m : module) (w : world) (dir : string)
    (F T : Z) : Prop :=
  match _get_free_bytes m with
  | Fn_get_free_bytes_win32 => GetDiskFreeSpaceEx w dir = Some (T, F)
  | Fn_get_free_bytes_default =>
      exists st, os_statvfs w dir = Ok st /\
                 F = f_bsize st * f_bfree st /\ T = f_bsize st * f_blocks st
  | _ => False
  end.

(** ** Situations the claims speak of *)

(** [URLError] or its subclass [HTTPError]. *)
Definition is_transport_error (e : exn) : bool :=
  match e with
  | URLError _ | HTTPError _ => true
  | _ => false
  end.

(** No wallpaper URL can be found at [url]: the fetch fails with a
    transport error, or the parsed page has no [twitter:image:src] tag. *)
Inductive no_wallpaper_url (w : world) (url : string) : Prop :=
  | fetch_failed e :
      urlopen w url = Raise e -> is_transport_error e = true ->
      no_wallpaper_url w url
  | tag_missing res body sp :
      urlopen w url = Ok res -> read res = Ok body ->
      BeautifulSoup w (sanitize body) = Ok sp ->
      find_meta sp "twitter:image:src" = None ->
      no_wallpaper_url w url.

(** Writing the output file fails with the [OSError] [e]: at [open], or at
    [write] once the body has been read. *)
Definition file_write_fails (w : world) (f : response) (outpath : string)
    (e : exn) : Prop :=
  open_wb w outpath = Raise e \/
  (open_wb w outpath = Ok tt /\
   exists data, read f = Ok data /\ write_file w outpath data = Raise e).

(** [c in s] for a character. *)
Fixpoint mem_char (c : ascii) (s : string) : bool :=
  match s with
  | EmptyString => false
  | String a rest => Ascii.eqb a c || mem_char c rest
  end.

(** Every line but the last ends with a newline. *)
Fixpoint newline_terminated (ls : list string) : Prop :=
  match ls with
  | [] => True
  | l :: rest => (rest <> [] -> endswith_char newline l = true) /\
                 newline_terminated rest
  end.

(** ** Sample worlds *)

Definition sample_dir : string := "/home/u/Pictures/NatGeoPics".

Definition sample_soup : soup :=
  {| find_meta := fun n =>
       if String.eqb n "twitter:image:src" then Some {[ "content" := "http://x/img.jpg" ]}
       else if String.eqb n "twitter:title" then Some {[ "content" := "My Photo" ]}
       else None |}.

(** A page without any meta tag. *)
Definition empty_soup : soup := {| find_meta := fun _ => None |}.

Definition sample_page : string :=
  "<html>" +:+ String newline
    ("<script>document.write(1)</script>" +:+ String newline "</html>").

(** A POSIX machine: [blocks] blocks of 4096 bytes under [sample_dir], of
    which [bfree] are free; [page] answers every URL but the image's. *)
Definition sample_world (platform : string) (bfree blocks : Z)
    (page img : result response) (sp : soup) (can_open : result unit) : world :=
  {| sys_platform := platform;
     os_path_expanduser := fun p => "/home/u" +:+ String.substring 1 (String.length p) p;
     os_path_join := posixpath_join;
     os_statvfs := fun d =>
       if String.eqb d sample_dir
       then Ok {| f_bsize := 4096; f_bfree := bfree; f_blocks := blocks |}
       else Raise (OSError "No such file or directory");
     GetDiskFreeSpaceEx := fun _ => None;
     urlopen := fun u => if String.eqb u "http://x/img.jpg" then img else page;
     BeautifulSoup := fun _ => Ok sp;
     open_wb := fun _ => can_open;
     write_file := fun _ _ => Ok tt;
     subprocess_Popen := fun _ => Ok tt;
     subprocess_call := fun _ => Ok 0 |}.

Definition page_ok : result response := Ok {| read := Ok sample_page |}.
Definition image_ok : result response := Ok {| read := Ok "JPEGDATA" |}.

Definition linux_module : module :=
  {| _get_free_bytes := Fn_get_free_bytes_default;
     set_wallpaper := Fn_set_wallpaper_linux |}.

Definition sample_settings : settings :=
  {| picture_dir := sample_dir;
     free_space_minimum := 25;
     base_url := "http://photography.nationalgeographic.com/photography/photo-of-the-day" |}.

(** ** Further situations and sample modules *)

Definition win32_module : module :=
  {| _get_free_bytes := Fn_get_free_bytes_win32;
     set_wallpaper := Fn_set_wallpaper_win32 |}.

Definition darwin_module : module :=
  {| _get_free_bytes := Fn_get_free_bytes_default;
     set_wallpaper := Fn_set_wallpaper_darwin |}.

(** The page at [page] is fetched, read and parsed, and both meta tags are
    there with a [content] attribute: [url] and [title]. *)
Definition details_available (w : world) (page url title : string) : Prop :=
  exists res body sp a1 a2,
    urlopen w page = Ok res /\ read res = Ok body /\
    BeautifulSoup w (sanitize body) = Ok sp /\
    find_meta sp "twitter:image:src" = Some a1 /\ a1 !! "content" = Some url /\
    find_meta sp "twitter:title" = Some a2 /\ a2 !! "content" = Some title.

(** The events that touch a file. *)
Definition is_file_event (ev : event) : bool :=
  match ev with
  | OpenWrite _ | WriteBytes _ _ => true
  | _ => false
  end.

(** The command line of the macOS setter. *)
Definition darwin_cmd (filename : string) : list string :=
  ["defaults"; "write"; "com.apple.desktop"; "Background";
   "{default = {ImageFilePath = " +:+ dquote +:+ filename +:+ dquote
     +:+ "; };}"].

(** A page whose image tag has an empty [content]. *)
Definition empty_url_soup : soup :=
  {| find_meta := fun n =>
       if String.eqb n "twitter:image:src" then Some {[ "content" := EmptyString ]}
       else Some {[ "content" := "My Photo" ]} |}.


(** * Properties *)

(** ** Rounding *)

Lemma pow2_pos k : 0 < pow2 k.
Proof. unfold pow2. apply Z.pow_pos_nonneg; lia. Qed.

Lemma pow2_nonpos k : k <= 0 -> pow2 k = 1.
Proof. intros H. unfold pow2. now rewrite Z.max_l by lia. Qed.

Lemma pow2_nonneg k : 0 <= k -> pow2 k = 2 ^ k.
Proof. intros H. unfold pow2. now rewrite Z.max_r by lia. Qed.

(** [2^a / 2^b] grows with [a - b]. *)
Lemma pow2_ratio_mono a b : a <= b -> pow2 a * pow2 (- b) <= pow2 b * pow2 (- a).
Proof.
  intros Hab.
  destruct (Z_le_gt_dec 0 a) as [Ha | Ha]; destruct (Z_le_gt_dec 0 b) as [Hb | Hb];
    try lia.
  - rewrite (pow2_nonneg a), (pow2_nonneg b), !pow2_nonpos by lia.
    rewrite !Z.mul_1_r. apply Z.pow_le_mono_r; lia.
  - rewrite (pow2_nonpos a), (pow2_nonpos (- b)), (pow2_nonneg b),
      (pow2_nonneg (- a)) by lia.
    assert (0 < 2 ^ b) by (apply Z.pow_pos_nonneg; lia).
    assert (0 < 2 ^ (- a)) by (apply Z.pow_pos_nonneg; lia).
    nia.
  - rewrite (pow2_nonpos a), (pow2_nonpos b), !pow2_nonneg by lia.
    rewrite !Z.mul_1_l. apply Z.pow_le_mono_r; lia.
Qed.

Lemma rne_div_le n d k : 0 < d -> n <= k * d -> rne_div n d <= k.
Proof.
  intros Hd Hn. unfold rne_div.
  pose proof (Z.div_mod n d ltac:(lia)) as Hdm.
  pose proof (Z.mod_pos_bound n d Hd) as Hr.
  assert (Hq : n / d <= k) by nia.
  assert (Hq' : 0 < n mod d -> n / d + 1 <= k) by nia.
  destruct (Z.compare_spec (2 * (n mod d)) d); [destruct (Z.even (n / d)) | |]; lia.
Qed.

Lemma rne_div_ge n d k : 0 < d -> k * d <= n -> k <= rne_div n d.
Proof.
  intros Hd Hn. unfold rne_div.
  pose proof (Z.div_mod n d ltac:(lia)) as Hdm.
  pose proof (Z.mod_pos_bound n d Hd) as Hr.
  assert (Hq : k <= n / d) by nia.
  destruct (Z.compare_spec (2 * (n mod d)) d); [destruct (Z.even (n / d)) | |]; lia.
Qed.

(** [2 ^ ilog2_ratio n d <= n / d]. *)
Lemma ilog2_ratio_lower n d :
  0 < n -> 0 < d ->
  d * pow2 (ilog2_ratio n d) <= n * pow2 (- ilog2_ratio n d).
Proof.
  intros Hn Hd. unfold ilog2_ratio, ratio_ge_pow2.
  destruct (Z.leb_spec (d * pow2 (Z.log2 n - Z.log2 d))
              (n * pow2 (- (Z.log2 n - Z.log2 d)))) as [H | H]; [exact H |].
  clear H.
  pose proof (Z.log2_spec n Hn) as [Hn1 _].
  pose proof (Z.log2_spec d Hd) as [_ Hd2].
  pose proof (Z.log2_nonneg n) as Ha. pose proof (Z.log2_nonneg d) as Hb.
  set (a := Z.log2 n) in *. set (b := Z.log2 d) in *.
  destruct (Z_le_gt_dec 1 (a - b)) as [Hl | Hl].
  - rewrite (pow2_nonneg (a - b - 1)), pow2_nonpos by lia.
    assert (E : 2 ^ a = 2 ^ (b + 1) * 2 ^ (a - b - 1)).
    { rewrite <- Z.pow_add_r by lia. f_equal. lia. }
    assert (0 < 2 ^ (a - b - 1)) by (apply Z.pow_pos_nonneg; lia).
    replace (Z.succ b) with (b + 1) in Hd2 by lia. nia.
  - rewrite (pow2_nonpos (a - b - 1)), pow2_nonneg by lia.
    assert (E : 2 ^ (b + 1) = 2 ^ a * 2 ^ (- (a - b - 1))).
    { rewrite <- Z.pow_add_r by lia. f_equal. lia. }
    assert (0 < 2 ^ (- (a - b - 1))) by (apply Z.pow_pos_nonneg; lia).
    replace (Z.succ b) with (b + 1) in Hd2 by lia. nia.
Qed.

(** [n / d < 2^(j+1)] bounds the exponent by [j]. *)
Lemma ilog2_ratio_upper n d j :
  0 < n -> 0 < d ->
  n * pow2 (- (j + 1)) < d * pow2 (j + 1) ->
  ilog2_ratio n d <= j.
Proof.
  intros Hn Hd Hlt.
  destruct (Z_le_gt_dec (ilog2_ratio n d) j) as [H | H]; [exact H | exfalso].
  pose proof (ilog2_ratio_lower n d Hn Hd) as Hlo.
  pose proof (pow2_ratio_mono (j + 1) (ilog2_ratio n d) ltac:(lia)) as Hm.
  set (fl := ilog2_ratio n d) in *.
  pose proof (pow2_pos fl). pose proof (pow2_pos (- fl)).
  pose proof (pow2_pos (j + 1)). pose proof (pow2_pos (- (j + 1))).
  assert (d * pow2 fl * pow2 (- (j + 1)) <= n * pow2 (- fl) * pow2 (- (j + 1))) by nia.
  assert (n * pow2 (- (j + 1)) * pow2 (- fl) < d * pow2 (j + 1) * pow2 (- fl)) by nia.
  assert (d * (pow2 fl * pow2 (- (j + 1))) < d * (pow2 (j + 1) * pow2 (- fl))) by lia.
  nia.
Qed.

(** The rounded quotient is within one half of the exact one. *)
Lemma rne_div_half n d : 0 < d -> 2 * Z.abs (rne_div n d * d - n) <= d.
Proof.
  intros Hd. unfold rne_div.
  pose proof (Z.div_mod n d ltac:(lia)) as Hdm.
  pose proof (Z.mod_pos_bound n d Hd) as Hr.
  set (q := n / d) in *. set (r := n mod d) in *.
  destruct (Z.compare_spec (2 * r) d); [destruct (Z.even q) | |]; lia.
Qed.

(** A positive ratio of at most [k], with [k < 2^(j+1) <= 2^53], rounds to
    a finite float of at most [k], within half a unit of its last place. *)
Lemma round_ratio_bounded n d k j :
  0 < d -> 0 < n -> n <= k * d -> k < 2 ^ (j + 1) -> 0 <= j <= 52 ->
  exists m e, round_ratio n d = Finite m e /\ e <= j - 52 /\
              0 <= m <= k * 2 ^ (- e) /\
              2 * Z.abs (m * d - n * 2 ^ (- e)) <= d.
Proof.
  intros Hd Hn Hk Hj Hj52. unfold round_ratio.
  destruct (Z.eqb_spec n 0) as [-> | _]; [lia |].
  rewrite (Z.abs_eq n) by lia.
  assert (Hfl : ilog2_ratio n d <= j).
  { apply ilog2_ratio_upper; try lia.
    rewrite pow2_nonpos, pow2_nonneg by lia. nia. }
  set (e := Z.max (ilog2_ratio n d - 52) (-1074)).
  assert (He : e <= j - 52) by lia.
  rewrite (pow2_nonpos e), (pow2_nonneg (- e)), !Z.mul_1_r by lia.
  assert (Hp : 0 < 2 ^ (- e)) by (apply Z.pow_pos_nonneg; lia).
  pose proof (rne_div_half (n * 2 ^ (- e)) d Hd) as Herr.
  set (m := rne_div (n * 2 ^ (- e)) d) in *.
  assert (Hm1 : m <= k * 2 ^ (- e)) by (apply rne_div_le; nia).
  assert (Hm0 : 0 <= m) by (apply rne_div_ge; nia).
  assert (Hk53 : 2 ^ (j + 1) <= 2 ^ 1024) by (apply Z.pow_le_mono_r; lia).
  rewrite (pow2_nonneg 1024) by lia.
  destruct (Z.leb_spec (2 ^ 1024 * 2 ^ (- e)) (Z.abs m)) as [Hov | _].
  - rewrite Z.abs_eq in Hov by lia. nia.
  - exists m, e. repeat split; auto; lia.
Qed.

(** ** The percentage computed by [free_space] *)

Lemma float_of_int_100 : float_of_int 100 = Finite (100 * 2 ^ 46) (-46).
Proof. vm_compute. reflexivity. Qed.

Lemma int_truediv_pos F T :
  0 < T -> int_truediv F T =
           match round_ratio F T with Infinity _ => Raise OverflowError | x => Ok x end.
Proof.
  intros HT. unfold int_truediv.
  destruct (Z.eqb_spec T 0) as [-> | _]; [lia |].
  now rewrite Z.sgn_pos, Z.abs_eq, Z.mul_1_r by lia.
Qed.

(** A quotient in [0, 1]: a mantissa [m] of at most [2^(-e)], with
    [m / 2^(-e)] within [1 / (2 * 2^(-e))] of [F / T]. *)
Lemma int_truediv_unit F T :
  0 < T -> 0 <= F <= T ->
  exists m e, int_truediv F T = Ok (Finite m e) /\ e <= 0 /\
              0 <= m <= 2 ^ (- e) /\
              (F = 0 \/ e <= -52) /\
              2 * Z.abs (m * T - F * 2 ^ (- e)) <= T.
Proof.
  intros HT HF. rewrite int_truediv_pos by assumption.
  destruct (Z.eq_dec F 0) as [-> | HF0].
  - exists 0, 0. unfold round_ratio. rewrite Z.eqb_refl. repeat split; cbn; lia.
  - destruct (round_ratio_bounded F T 1 0) as (m & e & -> & He & Hm & Herr);
      try lia.
    exists m, e. repeat split; lia.
Qed.

(** A float in [0, 1] times [100.0] is a float in [0, 100], within half a
    unit of its last place of the product. *)
Lemma float_mul_100_bounded m e :
  e <= 0 -> 0 <= m <= 2 ^ (- e) ->
  exists m' e', float_mul (Finite m e) (float_of_int 100) = Finite m' e' /\
                e' <= 0 /\ 0 <= m' <= 100 * 2 ^ (- e') /\
                ((m = 0 /\ m' = 0) \/
                 (e' <= -46 /\
                  2 * Z.abs (m' * 2 ^ (- e) - 100 * m * 2 ^ (- e')) <= 2 ^ (- e))).
Proof.
  intros He Hm. rewrite float_of_int_100. cbn [float_mul].
  rewrite (pow2_nonpos (e + -46)), (pow2_nonneg (- (e + -46))), Z.mul_1_r by lia.
  destruct (Z.eq_dec m 0) as [-> | Hm0].
  - exists 0, 0. unfold round_ratio. rewrite Z.mul_0_l, Z.eqb_refl.
    repeat split; cbn; lia.
  - assert (Hp : 0 < 2 ^ (- e)) by (apply Z.pow_pos_nonneg; lia).
    assert (E : 2 ^ (- (e + -46)) = 2 ^ 46 * 2 ^ (- e)).
    { rewrite <- Z.pow_add_r by lia. f_equal. lia. }
    assert (H46 : 0 < 2 ^ 46) by (apply Z.pow_pos_nonneg; lia).
    assert (Hd : 0 < 2 ^ (- (e + -46))) by (apply Z.pow_pos_nonneg; lia).
    assert (Hn : 0 < m * (100 * 2 ^ 46)) by nia.
    assert (Hle : m * (100 * 2 ^ 46) <= 100 * 2 ^ (- (e + -46))) by nia.
    assert (H128 : 100 < 2 ^ (6 + 1)) by (cbn; lia).
    destruct (round_ratio_bounded _ _ 100 6 Hd Hn Hle H128 ltac:(lia))
      as (m' & e' & -> & He' & Hm' & Herr).
    rewrite E in Herr.
    replace (m' * (2 ^ 46 * 2 ^ (- e)) - m * (100 * 2 ^ 46) * 2 ^ (- e'))
      with (2 ^ 46 * (m' * 2 ^ (- e) - 100 * m * 2 ^ (- e'))) in Herr by ring.
    rewrite Z.abs_mul, (Z.abs_eq (2 ^ 46)) in Herr by lia.
    exists m', e'. repeat split; lia.
Qed.

Lemma py_round_bounded m e :
  e <= 0 -> 0 <= m <= 100 * 2 ^ (- e) ->
  exists p, py_round (Finite m e) = Ok p /\ 0 <= p <= 100 /\
            2 * Z.abs (p * 2 ^ (- e) - m) <= 2 ^ (- e).
Proof.
  intros He Hm. cbn [py_round].
  rewrite (pow2_nonpos e), (pow2_nonneg (- e)), Z.mul_1_r by lia.
  assert (Hp : 0 < 2 ^ (- e)) by (apply Z.pow_pos_nonneg; lia).
  eexists. split; [reflexivity |].
  split; [split; [apply rne_div_ge | apply rne_div_le]; lia |].
  now apply rne_div_half.
Qed.

(** Three half-unit errors, with units of at most [2^(-52)], [2^(-46)] and
    1, add up to at most [1/2 + 2^(-45)]. *)
Lemma accumulated_error F T m m' p A B :
  0 < T -> 0 <= F -> 2 ^ 52 <= A -> 2 ^ 46 <= B ->
  2 * Z.abs (m * T - F * A) <= T ->
  2 * Z.abs (m' * A - 100 * m * B) <= A ->
  2 * Z.abs (p * B - m') <= B ->
  (2 * Z.abs (p * T - 100 * F) - T) * 2 ^ 44 <= T.
Proof.
  intros HT HF HA HB H1 H2 H3.
  assert (H52 : 2 ^ 52 = 4503599627370496) by reflexivity.
  assert (H46 : 2 ^ 46 = 70368744177664) by reflexivity.
  assert (H44 : 2 ^ 44 = 17592186044416) by reflexivity.
  rewrite H52 in HA. rewrite H46 in HB. rewrite H44.
  assert (Hid : (p * T - 100 * F) * (A * B) =
                T * A * (p * B - m') + T * (m' * A - 100 * m * B)
                + 100 * B * (m * T - F * A)) by ring.
  assert (Habs : 2 * (Z.abs (p * T - 100 * F) * (A * B)) <=
                 T * A * B + T * A + 100 * B * T).
  { set (u1 := p * B - m') in *.
    set (u2 := m' * A - 100 * m * B) in *.
    set (u3 := m * T - F * A) in *.
    assert (HTA : 0 <= T * A) by nia.
    assert (Hb1 : - B <= 2 * u1 <= B) by lia.
    assert (Hb2 : - A <= 2 * u2 <= A) by lia.
    assert (Hb3 : - T <= 2 * u3 <= T) by lia.
    assert (Hc1 : - (T * A * B) <= T * A * (2 * u1) <= T * A * B) by nia.
    assert (Hc2 : - (T * A) <= T * (2 * u2) <= T * A) by nia.
    assert (Hc3 : - (100 * B * T) <= 100 * B * (2 * u3) <= 100 * B * T) by nia.
    rewrite <- (Z.abs_eq (A * B)) at 1 by nia.
    rewrite <- Z.abs_mul, Hid. lia. }
  set (X := 2 * Z.abs (p * T - 100 * F) - T).
  assert (HX : X * (A * B) <= T * A + 100 * B * T) by (unfold X; lia).
  destruct (Z_le_gt_dec X 0) as [HX0 | HX0]; [nia |].
  assert (HAB : 17592186044416 * (A + 100 * B) <= A * B) by nia.
  assert (X * (17592186044416 * (A + 100 * B)) <= X * (A * B))
    by (apply Z.mul_le_mono_nonneg_l; lia).
  assert (X * 17592186044416 * (A + 100 * B) <= T * (A + 100 * B)) by lia.
  apply Z.mul_le_mono_pos_r with (p := A + 100 * B); lia.
Qed.

(** [int(round(F / T * 100))] is defined, lies in [0, 100], and is within
    [1/2 + 2^(-45)] of [100 * F / T]. *)
Lemma percentage_in_range F T :
  0 < T -> 0 <= F <= T ->
  exists x p, int_truediv F T = Ok x /\
              py_round (float_mul x (float_of_int 100)) = Ok p /\
              0 <= p <= 100 /\
              (2 * Z.abs (p * T - 100 * F) - T) * 2 ^ 44 <= T.
Proof.
  intros HT HF.
  destruct (int_truediv_unit F T HT HF) as (m & e & Hx & He & Hm & Hz & H1).
  destruct (float_mul_100_bounded m e He Hm) as (m' & e' & Hy & He' & Hm' & Hy').
  destruct (py_round_bounded m' e' He' Hm') as (p & Hp & Hr & H3).
  exists (Finite m e), p. rewrite Hy. repeat split; try assumption; try lia.
  assert (HA : 0 < 2 ^ (- e)) by (apply Z.pow_pos_nonneg; lia).
  assert (HB : 0 < 2 ^ (- e')) by (apply Z.pow_pos_nonneg; lia).
  assert (H44 : 0 < 2 ^ 44) by (apply Z.pow_pos_nonneg; lia).
  destruct Hy' as [[-> ->] | [He46 H2]].
  - assert (p = 0) by nia. subst p.
    destruct Hz as [-> | He52]; [nia |].
    assert (2 ^ 52 <= 2 ^ (- e)) by (apply Z.pow_le_mono_r; lia).
    assert (H52 : 2 ^ 52 = 256 * 2 ^ 44) by reflexivity.
    rewrite Z.mul_0_l, Z.sub_0_l, Z.abs_opp, Z.abs_eq in H1 by nia.
    rewrite Z.mul_0_l, Z.sub_0_l, Z.abs_opp, Z.abs_eq by lia.
    nia.
  - destruct Hz as [-> | He52].
    + assert (m = 0) by nia. subst m.
      assert (m' = 0) by nia. subst m'.
      assert (p = 0) by nia. subst p. nia.
    + apply (accumulated_error F T m m' p (2 ^ (- e)) (2 ^ (- e')));
        try assumption; try lia; apply Z.pow_le_mono_r; lia.
Qed.

(** ** The free-space query *)

Lemma query_reports_call m w dir F T :
  free_space_query_reports m w dir F T ->
  call_get_free_bytes (_get_free_bytes m) w dir = ret (F, T).
Proof.
  unfold free_space_query_reports, call_get_free_bytes.
  destruct (_get_free_bytes m); try contradiction.
  - intros H. unfold _get_free_bytes_win32. now rewrite H.
  - intros (st & H & -> & ->). unfold _get_free_bytes_default. now rewrite H.
Qed.

Lemma query_fails_call m w dir :
  free_space_query_fails m w dir ->
  exists e, call_get_free_bytes (_get_free_bytes m) w dir = raise e /\
            is_OSError e = true.
Proof.
  unfold free_space_query_fails, call_get_free_bytes.
  destruct (_get_free_bytes m); try contradiction.
  - intros H. unfold _get_free_bytes_win32. rewrite H. eauto.
  - intros (e & H & He). unfold _get_free_bytes_default. rewrite H. eauto.
Qed.

Lemma free_space_of_failure m w dir e :
  call_get_free_bytes (_get_free_bytes m) w dir = raise e ->
  is_OSError e = true ->
  free_space m w dir = ret PyFalse.
Proof.
  intros H He. unfold free_space. rewrite H. cbn. rewrite He. reflexivity.
Qed.

Lemma free_space_of_report m w dir F T :
  call_get_free_bytes (_get_free_bytes m) w dir = ret (F, T) ->
  free_space m w dir =
    (let* q := lift (int_truediv F T) in
     let* n := lift (py_round (float_mul q (float_of_int 100))) in
     ret (PyInt n)).
Proof.
  intros H. unfold free_space. rewrite H. cbn.
  destruct (int_truediv F T); cbn; [destruct (py_round _) |]; reflexivity.
Qed.

(** [free_space] returns [False] exactly when the query fails. *)
Lemma free_space_False_iff m w dir :
  snd (free_space m w dir) = Ok PyFalse <-> free_space_query_fails m w dir.
Proof.
  split.
  - unfold free_space, free_space_query_fails, call_get_free_bytes.
    destruct (_get_free_bytes m); cbn; try discriminate.
    + unfold _get_free_bytes_win32.
      destruct (GetDiskFreeSpaceEx w dir) as [[T F] |]; [| reflexivity].
      cbn. destruct (int_truediv F T) as [q |]; cbn; [| discriminate].
      destruct (py_round _); cbn; discriminate.
    + unfold _get_free_bytes_default.
      destruct (os_statvfs w dir) as [st | e]; cbn.
      * destruct (int_truediv _ _) as [q |]; cbn; [| discriminate].
        destruct (py_round _); cbn; discriminate.
      * destruct (is_OSError e) eqn:He; cbn; [eauto | discriminate].
  - intros H. destruct (query_fails_call _ _ _ H) as (e & Hc & He).
    now rewrite (free_space_of_failure _ _ _ _ Hc He).
Qed.

(** The driver on a reading [fs] of [free_space]. *)
Lemma driver_not_fs m w cfg fs :
  free_space m w (picture_dir cfg) = ret fs -> truthy fs = false ->
  set_random_wallpaper m w cfg =
    ([Print (picture_dir cfg +:+ " does not exist, please create.")],
     Raise (SystemExit 1)).
Proof.
  intros H Ht. unfold set_random_wallpaper. rewrite H. cbn. rewrite Ht. reflexivity.
Qed.

(** A reading between 1 and the minimum: exit code 2, and nothing on the
    network. *)
Lemma driver_low_space m w cfg p :
  free_space m w (picture_dir cfg) = ret (PyInt p) ->
  p <> 0 -> p <= free_space_minimum cfg ->
  set_random_wallpaper m w cfg =
    ([Print ("Not enough free space in " +:+ picture_dir cfg +:+ "! ("
               +:+ str_of_int p +:+ "% free)")],
     Raise (SystemExit 2)) /\
  List.filter is_network (fst (set_random_wallpaper m w cfg)) = [].
Proof.
  intros H Hp Hle. unfold set_random_wallpaper. rewrite H. cbn.
  destruct (Z.eqb_spec p 0) as [? | _]; [contradiction |]. cbn.
  destruct (Z.leb_spec p (free_space_minimum cfg)) as [_ | ?]; [| lia].
  split; reflexivity.
Qed.

(** ** Claims on the disk space check *)

(** C7: when the file system reports [T > 0] total bytes and [0 <= F <= T]
    free bytes, [free_space] raises nothing and returns the integer
    [round(F / T * 100)], the quotient, the product and the rounding being
    Python's (binary64, ties to even); that integer lies in [0, 100], and it
    is within [1/2 + 2^(-45)] of the exact [100 * F / T]. *)
Theorem free_space_percentage m w dir F T :
  free_space_query_reports m w dir F T ->
  0 < T -> 0 <= F <= T ->
  exists x p,
    int_truediv F T = Ok x /\
    py_round (float_mul x (float_of_int 100)) = Ok p /\
    free_space m w dir = ret (PyInt p) /\
    0 <= p <= 100 /\
    (2 * Z.abs (p * T - 100 * F) - T) * 2 ^ 44 <= T.
Proof.
  intros Hq HT HF.
  destruct (percentage_in_range F T HT HF) as (x & p & Hx & Hp & Hr & Hacc).
  exists x, p. repeat split; try assumption; try lia.
  rewrite (free_space_of_report _ _ _ _ _ (query_reports_call _ _ _ _ _ Hq)).
  rewrite Hx. cbn [lift bind]. rewrite Hp. reflexivity.
Qed.

Lemma free_space_percentage_witness :
  exists x p,
    int_truediv (4096 * 575) (4096 * 1000) = Ok x /\
    py_round (float_mul x (float_of_int 100)) = Ok p /\
    free_space linux_module
      (sample_world "linux" 575 1000 page_ok image_ok sample_soup (Ok tt))
      sample_dir = ret (PyInt p) /\
    0 <= p <= 100 /\
    (2 * Z.abs (p * (4096 * 1000) - 100 * (4096 * 575)) - 4096 * 1000) * 2 ^ 44
      <= 4096 * 1000.
Proof.
  apply free_space_percentage.
  - exists {| f_bsize := 4096; f_bfree := 575; f_blocks := 1000 |}.
    repeat split; reflexivity.
  - lia.
  - lia.
Defined.

(** Readings of [free_space] on the sample machine: a half is rounded to
    the even neighbour, and 57.5% is computed as 57.49999999999999. *)
Example free_space_readings :
  let fs bfree blocks :=
    free_space linux_module
      (sample_world "linux" bfree blocks page_ok image_ok sample_soup (Ok tt))
      sample_dir in
  fs 500 1000 = ret (PyInt 50) /\
  fs 1 3 = ret (PyInt 33) /\
  fs 1 200 = ret (PyInt 0) /\
  fs 3 200 = ret (PyInt 2) /\
  fs 575 1000 = ret (PyInt 57) /\
  fs 1000 1000 = ret (PyInt 100).
Proof. repeat split; vm_compute; reflexivity. Qed.

(** C10: a report of 0 total bytes makes [free_space] raise
    [ZeroDivisionError], which nothing catches; [False] is returned only
    when the query itself fails with an [OSError]. *)
Theorem free_space_zero_total m w dir F :
  free_space_query_reports m w dir F 0 ->
  free_space m w dir = raise ZeroDivisionError /\
  (forall w' dir', snd (free_space m w' dir') = Ok PyFalse ->
                   free_space_query_fails m w' dir').
Proof.
  intros Hq. split.
  - rewrite (free_space_of_report _ _ _ _ _ (query_reports_call _ _ _ _ _ Hq)).
    reflexivity.
  - intros w' dir'. apply free_space_False_iff.
Qed.

Lemma free_space_zero_total_witness :
  free_space linux_module
    (sample_world "linux" 0 0 page_ok image_ok sample_soup (Ok tt)) sample_dir
  = raise ZeroDivisionError /\
  (forall w' dir', snd (free_space linux_module w' dir') = Ok PyFalse ->
                   free_space_query_fails linux_module w' dir').
Proof.
  apply (free_space_zero_total _ _ _ (4096 * 0)).
  exists {| f_bsize := 4096; f_bfree := 0; f_blocks := 0 |}.
  repeat split; reflexivity.
Defined.

(** C6: when the directory does not exist, or the query fails otherwise
    with an [OSError], [free_space] returns [False] and raises nothing, and
    the driver prints its message and exits with code 1. *)
Theorem missing_directory_exit_1 m w cfg :
  free_space_query_fails m w (picture_dir cfg) ->
  free_space m w (picture_dir cfg) = ret PyFalse /\
  set_random_wallpaper m w cfg =
    ([Print (picture_dir cfg +:+ " does not exist, please create.")],
     Raise (SystemExit 1)) /\
  exit_status (snd (set_random_wallpaper m w cfg)) = 1.
Proof.
  intros Hq. destruct (query_fails_call _ _ _ Hq) as (e & Hc & He).
  pose proof (free_space_of_failure _ _ _ _ Hc He) as Hfs.
  pose proof (driver_not_fs m w cfg PyFalse Hfs eq_refl) as Hd.
  rewrite Hd. auto.
Qed.

Lemma missing_directory_exit_1_witness :
  let w := sample_world "linux" 500 1000 page_ok image_ok sample_soup (Ok tt) in
  let cfg := {| picture_dir := "/home/u/Pictures/Missing";
                free_space_minimum := 25;
                base_url := base_url sample_settings |} in
  free_space linux_module w (picture_dir cfg) = ret PyFalse /\
  set_random_wallpaper linux_module w cfg =
    ([Print (picture_dir cfg +:+ " does not exist, please create.")],
     Raise (SystemExit 1)) /\
  exit_status (snd (set_random_wallpaper linux_module w cfg)) = 1.
Proof.
  apply missing_directory_exit_1.
  exists (OSError "No such file or directory"). split; reflexivity.
Defined.

(** C2, at a full disk: an existing directory with no free byte has a
    percentage of 0, which is at or below any minimum from 0 on, and the
    driver reports the directory as missing and exits with code 1. *)
Theorem full_disk_exits_1 m w cfg T :
  free_space_query_reports m w (picture_dir cfg) 0 T ->
  0 < T -> 0 <= free_space_minimum cfg ->
  free_space m w (picture_dir cfg) = ret (PyInt 0) /\
  py_le (PyInt 0) (free_space_minimum cfg) = true /\
  set_random_wallpaper m w cfg =
    ([Print (picture_dir cfg +:+ " does not exist, please create.")],
     Raise (SystemExit 1)).
Proof.
  intros Hq HT Hmin.
  assert (Hfs : free_space m w (picture_dir cfg) = ret (PyInt 0)).
  { rewrite (free_space_of_report _ _ _ _ _ (query_reports_call _ _ _ _ _ Hq)).
    rewrite int_truediv_pos by assumption. reflexivity. }
  repeat split.
  - exact Hfs.
  - cbn. now apply Z.leb_le.
  - now apply (driver_not_fs m w cfg (PyInt 0)).
Qed.

Lemma full_disk_exits_1_witness :
  let w := sample_world "linux" 0 1000 page_ok image_ok sample_soup (Ok tt) in
  free_space linux_module w sample_dir = ret (PyInt 0) /\
  py_le (PyInt 0) 25 = true /\
  set_random_wallpaper linux_module w sample_settings =
    ([Print (sample_dir +:+ " does not exist, please create.")],
     Raise (SystemExit 1)).
Proof.
  apply (full_disk_exits_1 linux_module _ sample_settings (4096 * 1000)).
  - exists {| f_bsize := 4096; f_bfree := 0; f_blocks := 1000 |}.
    repeat split; reflexivity.
  - lia.
  - cbn. lia.
Defined.

(** ** The image download *)

(** [download_wallpaper] returns the path computed up front whenever it
    returns, and never lets a transport error out. *)
Lemma download_wallpaper_result w url dir fn :
  match snd (download_wallpaper w url dir fn) with
  | Ok p => p = outpath_of w url dir fn
  | Raise e => is_transport_error e = false
  end.
Proof.
  unfold download_wallpaper. cbn.
  destruct (urlopen w url) as [f | e]; cbn.
  - destruct (open_wb w _) as [[] | e]; cbn.
    + destruct (read f) as [data | e]; cbn.
      * destruct (write_file w _ data) as [[] | e]; cbn; [reflexivity |].
        destruct e; cbn; reflexivity.
      * destruct e; cbn; reflexivity.
    + destruct e; cbn; reflexivity.
  - destruct e; cbn; reflexivity.
Qed.

(** C3: when [urlopen] fails with an [HTTPError] or a [URLError],
    [download_wallpaper] raises nothing: it prints one message made of the
    code or reason and the URL, and returns the computed output path, which
    is the path any successful call returns on a platform with the same
    [os.path.join]. *)
Theorem download_wallpaper_transport_error w url dir fn e :
  urlopen w url = Raise e ->
  is_transport_error e = true ->
  exists msg,
    download_wallpaper w url dir fn =
      ([UrlOpen url; Print msg], Ok (outpath_of w url dir fn)) /\
    match e with
    | HTTPError code => msg = "HTTP Error: " +:+ str_of_int code +:+ " " +:+ url
    | URLError reason => msg = "URL Error: " +:+ reason +:+ " " +:+ url
    | _ => False
    end /\
    forall w' t p,
      os_path_join w' = os_path_join w ->
      download_wallpaper w' url dir fn = (t, Ok p) ->
      p = outpath_of w url dir fn.
Proof.
  intros Hu He.
  assert (Hsame : forall w' t p,
             os_path_join w' = os_path_join w ->
             download_wallpaper w' url dir fn = (t, Ok p) ->
             p = outpath_of w url dir fn).
  { intros w' t p Hj Hd.
    pose proof (download_wallpaper_result w' url dir fn) as Hr.
    rewrite Hd in Hr. cbn in Hr. subst p. unfold outpath_of. now rewrite Hj. }
  unfold download_wallpaper. rewrite Hu.
  destruct e; try discriminate; cbn; eexists; repeat split; eauto.
Qed.

Lemma download_wallpaper_transport_error_witness :
  let w := sample_world "linux" 500 1000 page_ok (Raise (HTTPError 404))
             sample_soup (Ok tt) in
  exists msg,
    download_wallpaper w "http://x/img.jpg" sample_dir "My Photo" =
      ([UrlOpen "http://x/img.jpg"; Print msg],
       Ok (outpath_of w "http://x/img.jpg" sample_dir "My Photo")) /\
    msg = "HTTP Error: " +:+ str_of_int 404 +:+ " " +:+ "http://x/img.jpg" /\
    forall w' t p,
      os_path_join w' = os_path_join w ->
      download_wallpaper w' "http://x/img.jpg" sample_dir "My Photo" = (t, Ok p) ->
      p = outpath_of w "http://x/img.jpg" sample_dir "My Photo".
Proof.
  intros w.
  apply (download_wallpaper_transport_error w "http://x/img.jpg" sample_dir
           "My Photo" (HTTPError 404)); reflexivity.
Defined.

(** C9: once the fetch has succeeded, an [OSError] from opening or writing
    the output file is not caught: [download_wallpaper] raises it and
    returns no path. *)
Theorem download_wallpaper_file_error w url dir fn f msg :
  urlopen w url = Ok f ->
  file_write_fails w f (outpath_of w url dir fn) (OSError msg) ->
  exists t, download_wallpaper w url dir fn = (t, Raise (OSError msg)).
Proof.
  intros Hu [Ho | (Ho & data & Hr & Hw)]; unfold download_wallpaper;
    rewrite Hu; cbn; rewrite Ho; cbn.
  - eexists. reflexivity.
  - rewrite Hr. cbn. rewrite Hw. cbn. eexists. reflexivity.
Qed.

Lemma download_wallpaper_file_error_witness :
  let w := sample_world "linux" 500 1000 page_ok image_ok sample_soup
             (Raise (OSError "No such file or directory")) in
  exists t, download_wallpaper w "http://x/img.jpg" "/home/u/Pictures/Missing"
              "My Photo" = (t, Raise (OSError "No such file or directory")).
Proof.
  intros w.
  apply (download_wallpaper_file_error w _ _ _ {| read := Ok "JPEGDATA" |}).
  - reflexivity.
  - left. reflexivity.
Defined.

(** ** The file name *)

Lemma split_without_sep sep s : mem_char sep s = false -> split sep s = [s].
Proof.
  induction s as [| c s IH]; [reflexivity |].
  cbn [mem_char split]. intros H. apply orb_false_iff in H as [Hc Hs].
  now rewrite Hc, (IH Hs).
Qed.

Lemma split_nonempty sep s : exists x xs, split sep s = x :: xs.
Proof.
  induction s as [| c s (x & xs & IH)]; cbn [split]; [eauto |].
  destruct (Ascii.eqb c sep); [eauto |]. rewrite IH. eauto.
Qed.

Lemma split_two sep s t :
  exists x y ys, split sep (s +:+ String sep t) = x :: y :: ys.
Proof.
  induction s as [| c s (x & y & ys & IH)].
  - change (EmptyString +:+ String sep t) with (String sep t). cbn [split].
    rewrite Ascii.eqb_refl. destruct (split_nonempty sep t) as (y & ys & ->).
    eauto.
  - change (String c s +:+ String sep t) with (String c (s +:+ String sep t)).
    cbn [split]. rewrite IH. destruct (Ascii.eqb c sep); eauto.
Qed.

(** [url.split(".")[-1]] is what follows the last dot. *)
Lemma split_last_segment sep s ext :
  mem_char sep ext = false ->
  List.last (split sep (s +:+ String sep ext)) EmptyString = ext.
Proof.
  intros Hext. induction s as [| c s IH].
  - change (EmptyString +:+ String sep ext) with (String sep ext). cbn [split].
    rewrite Ascii.eqb_refl, (split_without_sep _ _ Hext). reflexivity.
  - change (String c s +:+ String sep ext) with (String c (s +:+ String sep ext)).
    cbn [split]. destruct (split_two sep s ext) as (x & y & ys & E).
    rewrite E in IH |- *. destruct (Ascii.eqb c sep); exact IH.
Qed.

(** The output path: the directory joined with the title as given, a dot,
    and what follows the last dot of the URL. *)
Lemma outpath_of_extension w s ext dir title :
  mem_char "."%char ext = false ->
  outpath_of w (s +:+ String "."%char ext) dir title =
  os_path_join w dir (title +:+ "." +:+ ext).
Proof. intros H. unfold outpath_of. now rewrite split_last_segment. Qed.

(** C4, at titles with a path separator: the title goes into the file name
    as it is, so the separator stays in the path, and a title that starts
    with one replaces the target directory. *)
Theorem download_wallpaper_keeps_separators :
  let w := sample_world "linux" 500 1000 page_ok image_ok sample_soup (Ok tt) in
  snd (download_wallpaper w "http://x/img.jpg" sample_dir "My Photo")
    = Ok "/home/u/Pictures/NatGeoPics/My Photo.jpg" /\
  snd (download_wallpaper w "http://x/img.jpg" sample_dir "a/b")
    = Ok "/home/u/Pictures/NatGeoPics/a/b.jpg" /\
  snd (download_wallpaper w "http://x/img.jpg" sample_dir "/tmp/x")
    = Ok "/tmp/x.jpg".
Proof. repeat split; vm_compute; reflexivity. Qed.

(** ** Lines and the marker *)

Lemma append_empty_r s : s +:+ EmptyString = s.
Proof.
  induction s as [| c s IH]; [reflexivity |].
  change (String c (s +:+ EmptyString) = String c s). now rewrite IH.
Qed.

(** The lines of a body, joined, are the body. *)
Lemma readlines_join body : join_bytes (readlines body) = body.
Proof.
  induction body as [| c rest IH]; [reflexivity |].
  unfold join_bytes in *. cbn [readlines]. destruct (Ascii.eqb c newline).
  - cbn [fold_right]. rewrite IH. reflexivity.
  - destruct (readlines rest) as [| l ls].
    + cbn in IH. subst rest. reflexivity.
    + cbn [fold_right] in *. rewrite <- IH. reflexivity.
Qed.

Lemma readlines_terminated body : newline_terminated (readlines body).
Proof.
  induction body as [| c rest IH]; [exact I |].
  cbn [readlines]. destruct (Ascii.eqb c newline) eqn:Hc.
  - split; [| exact IH]. intros _. cbn. exact Hc.
  - destruct (readlines rest) as [| l ls]; [cbn; tauto |].
    destruct IH as [Hl Hls]. split; [| exact Hls].
    intros Hne. specialize (Hl Hne).
    destruct l as [| b l]; [discriminate |]. exact Hl.
Qed.

Lemma filter_terminated (f : string -> bool) ls :
  newline_terminated ls -> newline_terminated (List.filter f ls).
Proof.
  induction ls as [| l rest IH]; [trivial |].
  intros [Hl Hrest]. cbn [List.filter]. destruct (f l); [| auto].
  split; [| auto]. intros Hne. apply Hl. intros ->. now apply Hne.
Qed.

(** A pattern without a newline that starts inside a line ending with one
    lies within the line. *)
Lemma prefix_app_terminated pat : forall l r,
  mem_char newline pat = false ->
  endswith_char newline l = true ->
  String.prefix pat (l +:+ r) = true -> String.prefix pat l = true.
Proof.
  induction pat as [| p pat IH]; intros l r Hp Hl Hpre.
  - destruct l; reflexivity.
  - destruct l as [| c l]; [discriminate |].
    cbn in Hp. apply orb_false_iff in Hp as [Hpc Hp].
    change (String c l +:+ r) with (String c (l +:+ r)) in Hpre.
    cbn [String.prefix] in Hpre |- *.
    destruct (ascii_dec p c) as [-> | _]; [| discriminate].
    destruct l as [| b l].
    + cbn in Hl. congruence.
    + apply (IH (String b l) r); assumption.
Qed.

Lemma contains_app_terminated pat l r :
  mem_char newline pat = false ->
  endswith_char newline l = true ->
  contains pat (l +:+ r) = true ->
  contains pat l = true \/ contains pat r = true.
Proof.
  intros Hp. induction l as [| c l IH]; intros Hl Hc; [discriminate |].
  change (String c l +:+ r) with (String c (l +:+ r)) in Hc.
  cbn [contains] in Hc. apply orb_true_iff in Hc as [Hpre | Hc].
  - left. cbn [contains]. apply orb_true_iff. left.
    apply (prefix_app_terminated pat (String c l) r); assumption.
  - destruct l as [| b l]; [right; exact Hc |].
    destruct (IH Hl Hc) as [H | H]; [left | right; exact H].
    cbn [contains]. apply orb_true_iff. right. exact H.
Qed.

(** Lines that end where they should and do not hold the pattern do not
    hold it once joined. *)
Lemma join_bytes_no_pattern pat ls :
  mem_char newline pat = false ->
  contains pat EmptyString = false ->
  newline_terminated ls ->
  (forall l, In l ls -> contains pat l = false) ->
  contains pat (join_bytes ls) = false.
Proof.
  intros Hp He. induction ls as [| l rest IH]; intros Ht Hall; [exact He |].
  destruct Ht as [Hl Hrest]. cbn [join_bytes fold_right].
  destruct rest as [| l' rest].
  - cbn. rewrite append_empty_r. apply Hall. now left.
  - destruct (contains pat (l +:+ _)) eqn:Hc; [exfalso | reflexivity].
    apply contains_app_terminated in Hc; [| assumption | now apply Hl].
    destruct Hc as [Hc | Hc].
    + rewrite Hall in Hc; [discriminate | now left].
    + unfold join_bytes in IH. rewrite IH in Hc; [discriminate | assumption |].
      intros l0 Hin. apply Hall. now right.
Qed.

(** Nothing that reaches the parser holds the marker. *)
Lemma sanitize_no_marker body : contains marker (sanitize body) = false.
Proof.
  unfold sanitize. apply join_bytes_no_pattern; try reflexivity.
  - apply filter_terminated, readlines_terminated.
  - intros l Hin. apply filter_In in Hin as [_ Hl].
    now apply negb_true_iff in Hl.
Qed.

(** A body without the marker reaches the parser as it is. *)
Lemma sanitize_clean body :
  (forall l, In l (readlines body) -> contains marker l = false) ->
  sanitize body = body.
Proof.
  intros H. unfold sanitize.
  rewrite forallb_filter_id; [apply readlines_join |].
  apply forallb_forall. intros l Hin. now rewrite (H l Hin).
Qed.

(** ** The metadata fetch *)

Lemma bind_ret_l {A B} (a : A) (k : A -> io B) : bind (ret a) k = k a.
Proof. unfold bind, ret. destruct (k a). reflexivity. Qed.

Ltac run_io :=
  cbn [bind try_except lift emit ret raise print fst snd app is_transport_error].

Lemma details_fetch_failed w url e :
  urlopen w url = Raise e -> is_transport_error e = true ->
  get_wallpaper_details w url = ([UrlOpen url], Ok NoDetails).
Proof.
  intros Hu He. unfold get_wallpaper_details. rewrite Hu.
  destruct e; try discriminate; reflexivity.
Qed.

Lemma details_tag_missing w url res body sp :
  urlopen w url = Ok res -> read res = Ok body ->
  BeautifulSoup w (sanitize body) = Ok sp ->
  find_meta sp "twitter:image:src" = None ->
  get_wallpaper_details w url =
    ([UrlOpen url; Parse (sanitize body)],
     Raise (TypeError "'NoneType' object is not subscriptable")).
Proof.
  intros Hu Hr Hs Hf. unfold get_wallpaper_details.
  rewrite Hu. run_io. rewrite Hr. run_io. rewrite Hs. run_io.
  rewrite Hf. reflexivity.
Qed.

(** C8: the parser is called once, on the join, in their order, of the
    lines of the body that do not hold [document.write]; the lines are
    those of the body, a line holding the marker is not among the ones
    joined, and the marker does not occur in what is parsed. *)
Theorem parser_receives_filtered_lines w url res body :
  urlopen w url = Ok res -> read res = Ok body ->
  let kept := List.filter (fun line => negb (contains marker line))
                (readlines body) in
  join_bytes (readlines body) = body /\
  (forall line, In line kept <->
                In line (readlines body) /\ contains marker line = false) /\
  contains marker (join_bytes kept) = false /\
  exists t r,
    get_wallpaper_details w url =
      (UrlOpen url :: Parse (join_bytes kept) :: t, r) /\
    forall c, ~ In (Parse c) t.
Proof.
  intros Hu Hr kept. split; [apply readlines_join |]. split; [| split].
  - intros line. unfold kept. rewrite filter_In, negb_true_iff. reflexivity.
  - apply sanitize_no_marker.
  - unfold get_wallpaper_details. rewrite Hu. run_io. rewrite Hr. run_io.
    fold kept. change (sanitize body) with (join_bytes kept).
    destruct (BeautifulSoup w (join_bytes kept)) as [sp | e]; run_io.
    + unfold content_of.
      destruct (find_meta sp "twitter:image:src") as [a1 |]; run_io;
        [destruct (a1 !! "content"); run_io;
         [destruct (find_meta sp "twitter:title") as [a2 |]; run_io;
          [destruct (a2 !! "content"); run_io |] |] |];
        (exists [] + idtac); eexists; (split; [reflexivity | intros c []]).
    + destruct e; run_io;
        try (exists []; eexists; split; [reflexivity | intros c []]).
      eexists [Print msg], _. split; [reflexivity |].
      intros c [H | []]. discriminate.
Qed.

Lemma parser_receives_filtered_lines_witness :
  let w := sample_world "linux" 500 1000 page_ok image_ok sample_soup (Ok tt) in
  let kept := List.filter (fun line => negb (contains marker line))
                (readlines sample_page) in
  join_bytes (readlines sample_page) = sample_page /\
  (forall line, In line kept <->
                In line (readlines sample_page) /\ contains marker line = false) /\
  contains marker (join_bytes kept) = false /\
  exists t r,
    get_wallpaper_details w (base_url sample_settings) =
      (UrlOpen (base_url sample_settings) :: Parse (join_bytes kept) :: t, r) /\
    forall c, ~ In (Parse c) t.
Proof.
  intros w.
  apply (parser_receives_filtered_lines w _ {| read := Ok sample_page |});
    reflexivity.
Defined.

(** ** The driver past the disk space check *)

Lemma driver_enough_space m w cfg p :
  free_space m w (picture_dir cfg) = ret (PyInt p) ->
  p <> 0 -> free_space_minimum cfg < p ->
  set_random_wallpaper m w cfg =
    (let* d := get_wallpaper_details w (base_url cfg) in
     match d with
     | NoDetails => raise (TypeError "cannot unpack non-iterable bool object")
     | URLDetail url title =>
         if String.eqb url EmptyString then
           print "No wallpaper URL found.";;
           raise (SystemExit 3)
         else
           let* filename := download_wallpaper w url (picture_dir cfg) title in
           call_set_wallpaper (set_wallpaper m) w filename
     end).
Proof.
  intros Hfs Hp Hmin. unfold set_random_wallpaper. rewrite Hfs, bind_ret_l.
  cbn [truthy py_le].
  destruct (Z.eqb_spec p 0) as [? | _]; [contradiction |]. cbn [negb].
  destruct (Z.leb_spec p (free_space_minimum cfg)) as [? | _]; [lia |].
  reflexivity.
Qed.

(** Exit code 3 is what an empty [content] attribute leads to. *)
Lemma driver_empty_url_exit_3 m w cfg p res body sp title :
  free_space m w (picture_dir cfg) = ret (PyInt p) ->
  p <> 0 -> free_space_minimum cfg < p ->
  urlopen w (base_url cfg) = Ok res -> read res = Ok body ->
  BeautifulSoup w (sanitize body) = Ok sp ->
  find_meta sp "twitter:image:src" = Some {[ "content" := EmptyString ]} ->
  find_meta sp "twitter:title" = Some {[ "content" := title ]} ->
  snd (set_random_wallpaper m w cfg) = Raise (SystemExit 3).
Proof.
  intros Hfs Hp Hmin Hu Hr Hs Hi Ht.
  rewrite (driver_enough_space _ _ _ _ Hfs Hp Hmin).
  unfold get_wallpaper_details. rewrite Hu. run_io. rewrite Hr. run_io.
  rewrite Hs. run_io. rewrite Hi, Ht. unfold content_of.
  rewrite !lookup_singleton_eq. reflexivity.
Qed.

(** C1, where no URL can be found: past the disk space check, a failed
    fetch makes the driver unpack [False], and a page without the
    [twitter:image:src] tag makes the fetcher subscript [None]; both raise
    a [TypeError] that nothing catches, and the exit status is 1. *)
Theorem no_wallpaper_url_TypeError m w cfg p :
  free_space m w (picture_dir cfg) = ret (PyInt p) ->
  p <> 0 -> free_space_minimum cfg < p ->
  no_wallpaper_url w (base_url cfg) ->
  exists t msg,
    set_random_wallpaper m w cfg = (t, Raise (TypeError msg)) /\
    exit_status (snd (set_random_wallpaper m w cfg)) = 1.
Proof.
  intros Hfs Hp Hmin Hno.
  rewrite (driver_enough_space _ _ _ _ Hfs Hp Hmin).
  destruct Hno as [e Hu He | res body sp Hu Hr Hs Hf].
  - rewrite (details_fetch_failed _ _ _ Hu He). run_io.
    eexists _, _. split; reflexivity.
  - rewrite (details_tag_missing _ _ _ _ _ Hu Hr Hs Hf). run_io.
    eexists _, _. split; reflexivity.
Qed.

Lemma no_wallpaper_url_TypeError_witness :
  let w := sample_world "linux" 500 1000 (Raise (URLError "timed out")) image_ok
             sample_soup (Ok tt) in
  exists t msg,
    set_random_wallpaper linux_module w sample_settings = (t, Raise (TypeError msg)) /\
    exit_status (snd (set_random_wallpaper linux_module w sample_settings)) = 1.
Proof.
  intros w.
  apply (no_wallpaper_url_TypeError linux_module w sample_settings 50).
  - vm_compute. reflexivity.
  - lia.
  - cbn. lia.
  - apply (fetch_failed _ _ (URLError "timed out")); reflexivity.
Defined.

(** Runs of the driver on the sample machine: a page without meta tags, a
    failed image download, and a disk at the minimum. *)
Example driver_runs :
  let run bfree page img sp :=
    set_random_wallpaper linux_module
      (sample_world "linux" bfree 1000 page img sp (Ok tt)) sample_settings in
  run 500 page_ok image_ok empty_soup
    = ([UrlOpen (base_url sample_settings);
        Parse ("<html>" +:+ String newline "</html>")],
       Raise (TypeError "'NoneType' object is not subscriptable")) /\
  run 500 page_ok (Raise (HTTPError 404)) sample_soup
    = ([UrlOpen (base_url sample_settings);
        Parse ("<html>" +:+ String newline "</html>");
        UrlOpen "http://x/img.jpg";
        Print "HTTP Error: 404 http://x/img.jpg";
        Popen ["gconftool-2"; "-t"; "str"; "--set";
               "/desktop/gnome/background/picture_filename";
               "/home/u/Pictures/NatGeoPics/My Photo.jpg"]],
       Ok tt) /\
  run 250 page_ok image_ok sample_soup
    = ([Print "Not enough free space in /home/u/Pictures/NatGeoPics! (25% free)"],
       Raise (SystemExit 2)).
Proof. repeat split; vm_compute; reflexivity. Qed.

(** ** The platform dispatch *)

Lemma load_module_supported :
  load_module "linux" = Ok linux_module /\
  load_module "win32" = Ok {| _get_free_bytes := Fn_get_free_bytes_win32;
                              set_wallpaper := Fn_set_wallpaper_win32 |} /\
  load_module "darwin" = Ok {| _get_free_bytes := Fn_get_free_bytes_default;
                               set_wallpaper := Fn_set_wallpaper_darwin |}.
Proof. repeat split; vm_compute; reflexivity. Qed.

Ltac other_key :=
  let E := fresh in
  intros E; cbv [String.append] in E; first [discriminate E | injection E; congruence].

(** Only the three setters are bound under a name [_set_wallpaper_...]. *)
Lemma set_wallpaper_lookup_unsupported gfb p :
  p <> "linux" -> p <> "win32" -> p <> "darwin" ->
  globals_at_set_wallpaper gfb !! ("_set_wallpaper_" +:+ p) = None.
Proof.
  intros Hl Hw Hd.
  unfold globals_at_set_wallpaper, globals_at_get_free_bytes, bind_names.
  cbn [foldr].
  repeat (rewrite lookup_insert_ne by other_key).
  apply lookup_empty.
Qed.

Lemma load_module_unsupported p :
  p <> "linux" -> p <> "win32" -> p <> "darwin" ->
  load_module p = Raise (KeyError ("_set_wallpaper_" +:+ p)).
Proof.
  intros Hl Hw Hd. unfold load_module, dict_getitem.
  now rewrite set_wallpaper_lookup_unsupported.
Qed.

(** C5, as the code has it: on a platform other than linux, win32 and
    darwin the module body stops at the lookup of the setter with a
    [KeyError] naming [_set_wallpaper_<platform>]; the driver does not
    start, no event is emitted, and the exit status is 1. *)
Theorem unsupported_platform_KeyError w cfg :
  sys_platform w <> "linux" ->
  sys_platform w <> "win32" ->
  sys_platform w <> "darwin" ->
  main w cfg = ([], Raise (KeyError ("_set_wallpaper_" +:+ sys_platform w))) /\
  exit_status (snd (main w cfg)) = 1.
Proof.
  intros Hl Hw Hd. unfold main.
  rewrite (load_module_unsupported _ Hl Hw Hd). split; reflexivity.
Qed.

Lemma unsupported_platform_KeyError_witness :
  let w := sample_world "freebsd13" 500 1000 page_ok image_ok sample_soup (Ok tt) in
  main w sample_settings = ([], Raise (KeyError "_set_wallpaper_freebsd13")) /\
  exit_status (snd (main w sample_settings)) = 1.
Proof.
  intros w.
  apply (unsupported_platform_KeyError w sample_settings); cbn; discriminate.
Defined.

(** C5, as stated, fails on freebsd13: the run ends with a [KeyError]
    before the disk check, the fetch and the download, which the same
    world goes through on linux before it reaches the setter. *)
Lemma unsupported_platform_fails_before_driver :
  let w p := sample_world p 500 1000 page_ok image_ok sample_soup (Ok tt) in
  main (w "freebsd13") sample_settings
    = ([], Raise (KeyError "_set_wallpaper_freebsd13")) /\
  ~ In (UrlOpen "http://x/img.jpg") (fst (main (w "freebsd13") sample_settings)) /\
  main (w "linux") sample_settings
    = ([UrlOpen (base_url sample_settings);
        Parse ("<html>" +:+ String newline "</html>");
        UrlOpen "http://x/img.jpg";
        Print "Downloading http://x/img.jpg";
        OpenWrite "/home/u/Pictures/NatGeoPics/My Photo.jpg";
        WriteBytes "/home/u/Pictures/NatGeoPics/My Photo.jpg" "JPEGDATA";
        Popen ["gconftool-2"; "-t"; "str"; "--set";
               "/desktop/gnome/background/picture_filename";
               "/home/u/Pictures/NatGeoPics/My Photo.jpg"]],
       Ok tt).
Proof.
  intros w. split; [vm_compute; reflexivity |]. split.
  - vm_compute. tauto.
  - vm_compute. reflexivity.
Qed.

(** * Further properties of the module *)

(** ** Which platforms load *)

(** The lookup of the free-space query never fails: whatever the platform
    name, it gives the Windows query on win32 and the [statvfs] query
    otherwise. *)
Lemma get_free_bytes_lookup p :
  dict_get globals_at_get_free_bytes ("_get_free_bytes_" +:+ p)
    Fn_get_free_bytes_default
  = if String.eqb p "win32" then Fn_get_free_bytes_win32
    else Fn_get_free_bytes_default.
Proof.
  unfold dict_get, globals_at_get_free_bytes, bind_names. cbn [foldr].
  destruct (String.eqb_spec p "win32") as [-> | Hw]; [reflexivity |].
  destruct (String.eqb_spec p "default") as [-> | Hd]; [reflexivity |].
  repeat (rewrite lookup_insert_ne by other_key).
  now rewrite lookup_empty.
Qed.

Lemma load_module_cases p m :
  load_module p = Ok m ->
  (p = "linux" /\ m = linux_module) \/
  (p = "win32" /\ m = win32_module) \/
  (p = "darwin" /\ m = darwin_module).
Proof.
  destruct (String.eqb_spec p "linux") as [-> | Hl].
  { vm_compute. intros [= <-]. auto. }
  destruct (String.eqb_spec p "win32") as [-> | Hw].
  { vm_compute. intros [= <-]. auto. }
  destruct (String.eqb_spec p "darwin") as [-> | Hd].
  { vm_compute. intros [= <-]. auto 6. }
  rewrite (load_module_unsupported _ Hl Hw Hd). discriminate.
Qed.

(** The module loads on linux, win32 and darwin and nowhere else; it binds
    the setter of the platform, and the Windows free-space query on win32
    only. *)
Theorem load_module_iff p m :
  load_module p = Ok m <->
  (p = "linux" /\ m = linux_module) \/
  (p = "win32" /\ m = win32_module) \/
  (p = "darwin" /\ m = darwin_module).
Proof.
  split; [apply load_module_cases |].
  intros [[-> ->] | [[-> ->] | [-> ->]]]; vm_compute; reflexivity.
Qed.

(** ** What the metadata fetch returns *)

(** [get_wallpaper_details] returns a [URLDetail] exactly when the page is
    fetched, read and parsed and both meta tags carry a [content]
    attribute; the two strings are those attributes, never a default. *)
Theorem get_wallpaper_details_URLDetail_iff w page url title :
  snd (get_wallpaper_details w page) = Ok (URLDetail url title) <->
  details_available w page url title.
Proof.
  unfold details_available, get_wallpaper_details. split.
  - destruct (urlopen w page) as [res | e]; run_io.
    2: { destruct e; run_io; discriminate. }
    destruct (read res) as [body | e] eqn:Hr; run_io; [| discriminate].
    destruct (BeautifulSoup w (sanitize body)) as [sp | e] eqn:Hs; run_io.
    2: { destruct e; run_io; discriminate. }
    unfold content_of.
    destruct (find_meta sp "twitter:image:src") as [a1 |] eqn:H1; run_io;
      [| discriminate].
    destruct (a1 !! "content") as [u |] eqn:Hu; run_io; [| discriminate].
    destruct (find_meta sp "twitter:title") as [a2 |] eqn:H2; run_io;
      [| discriminate].
    destruct (a2 !! "content") as [t |] eqn:Ht; run_io; [| discriminate].
    intros [= -> ->]. exists res, body, sp, a1, a2. repeat split; assumption.
  - intros (res & body & sp & a1 & a2 & Hu & Hr & Hs & H1 & Hc1 & H2 & Hc2).
    rewrite Hu. run_io. rewrite Hr. run_io. rewrite Hs. run_io.
    unfold content_of. rewrite H1, Hc1. run_io. rewrite H2, Hc2. reflexivity.
Qed.

(** [get_wallpaper_details] returns [False] exactly when [urlopen] raises a
    [URLError] or an [HTTPError]; any other exception of the fetch, of the
    read or of the parser is not turned into [False]. *)
Theorem get_wallpaper_details_False_iff w page :
  snd (get_wallpaper_details w page) = Ok NoDetails <->
  exists e, urlopen w page = Raise e /\ is_transport_error e = true.
Proof.
  unfold get_wallpaper_details. split.
  - destruct (urlopen w page) as [res | e]; run_io.
    2: { destruct e; run_io; try discriminate; eauto. }
    destruct (read res) as [body | e]; run_io; [| discriminate].
    destruct (BeautifulSoup w (sanitize body)) as [sp | e]; run_io.
    2: { destruct e; run_io; discriminate. }
    unfold content_of.
    destruct (find_meta sp "twitter:image:src") as [a1 |]; run_io;
      [| discriminate].
    destruct (a1 !! "content"); run_io; [| discriminate].
    destruct (find_meta sp "twitter:title") as [a2 |]; run_io;
      [| discriminate].
    destruct (a2 !! "content"); run_io; discriminate.
  - intros (e & Hu & He). rewrite Hu. destruct e; try discriminate; reflexivity.
Qed.



(** ** What the download does to the network and to the file *)

(** When the fetch, the open, the read and the write all succeed,
    [download_wallpaper] announces the download, opens the computed path
    for writing, writes to it the bytes read from the response, and
    returns that path. *)
Theorem download_wallpaper_success w url dir fn f data :
  urlopen w url = Ok f ->
  open_wb w (outpath_of w url dir fn) = Ok tt ->
  read f = Ok data ->
  write_file w (outpath_of w url dir fn) data = Ok tt ->
  download_wallpaper w url dir fn =
    ([UrlOpen url; Print ("Downloading " +:+ url);
      OpenWrite (outpath_of w url dir fn);
      WriteBytes (outpath_of w url dir fn) data],
     Ok (outpath_of w url dir fn)).
Proof.
  intros Hu Ho Hr Hw. unfold download_wallpaper.
  rewrite Hu. run_io. rewrite Ho. run_io. rewrite Hr. run_io. rewrite Hw.
  reflexivity.
Qed.

Lemma download_wallpaper_success_witness :
  let w := sample_world "linux" 500 1000 page_ok image_ok sample_soup (Ok tt) in
  download_wallpaper w "http://x/img.jpg" sample_dir "My Photo" =
    ([UrlOpen "http://x/img.jpg"; Print ("Downloading " +:+ "http://x/img.jpg");
      OpenWrite (outpath_of w "http://x/img.jpg" sample_dir "My Photo");
      WriteBytes (outpath_of w "http://x/img.jpg" sample_dir "My Photo") "JPEGDATA"],
     Ok (outpath_of w "http://x/img.jpg" sample_dir "My Photo")).
Proof.
  intros w.
  apply (download_wallpaper_success w _ _ _ {| read := Ok "JPEGDATA" |});
    reflexivity.
Defined.

(** Whatever happens, [download_wallpaper] goes to the network for the given
    URL only, opens no file unless the fetch succeeded, touches no file
    but the computed path, and writes nothing but the bytes read from the
    response; it launches no process. *)
Theorem download_wallpaper_events w url dir fn ev :
  In ev (fst (download_wallpaper w url dir fn)) ->
  match ev with
  | Print _ => True
  | UrlOpen u => u = url
  | OpenWrite path =>
      path = outpath_of w url dir fn /\ exists f, urlopen w url = Ok f
  | WriteBytes path data =>
      path = outpath_of w url dir fn /\
      exists f, urlopen w url = Ok f /\
                open_wb w (outpath_of w url dir fn) = Ok tt /\
                read f = Ok data
  | _ => False
  end.
Proof.
  unfold download_wallpaper.
  destruct (urlopen w url) as [f | e] eqn:Hu; run_io.
  2: { destruct e; run_io; cbn [In]; intuition (subst; auto). }
  destruct (open_wb w (outpath_of w url dir fn)) as [[] | e] eqn:Ho; run_io.
  2: { destruct e; run_io; cbn [In]; intuition (subst; eauto). }
  destruct (read f) as [data | e] eqn:Hr; run_io.
  2: { destruct e; run_io; cbn [In]; intuition (subst; eauto). }
  destruct (write_file w (outpath_of w url dir fn) data) as [[] | e]; run_io.
  2: { destruct e; run_io; cbn [In]; intuition (subst; eauto 6). }
  cbn [In]; intuition (subst; eauto 6).
Qed.

Lemma download_wallpaper_events_witness :
  let w := sample_world "linux" 500 1000 page_ok image_ok sample_soup (Ok tt) in
  "/home/u/Pictures/NatGeoPics/My Photo.jpg"
    = outpath_of w "http://x/img.jpg" sample_dir "My Photo" /\
  exists f, urlopen w "http://x/img.jpg" = Ok f /\
            open_wb w (outpath_of w "http://x/img.jpg" sample_dir "My Photo") = Ok tt /\
            read f = Ok "JPEGDATA".
Proof.
  intros w.
  apply (download_wallpaper_events w "http://x/img.jpg" sample_dir "My Photo"
           (WriteBytes "/home/u/Pictures/NatGeoPics/My Photo.jpg" "JPEGDATA")).
  vm_compute. auto.
Defined.

(** When the response breaks off with a [URLError] while it is read, the
    file has already been opened for writing, so it is left empty:
    nothing is written, the error is reported, and the path is returned
    all the same. *)
Theorem download_wallpaper_read_failure w url dir fn f reason :
  urlopen w url = Ok f ->
  open_wb w (outpath_of w url dir fn) = Ok tt ->
  read f = Raise (URLError reason) ->
  download_wallpaper w url dir fn =
    ([UrlOpen url; Print ("Downloading " +:+ url);
      OpenWrite (outpath_of w url dir fn);
      Print ("URL Error: " +:+ reason +:+ " " +:+ url)],
     Ok (outpath_of w url dir fn)).
Proof.
  intros Hu Ho Hr. unfold download_wallpaper.
  rewrite Hu. run_io. rewrite Ho. run_io. rewrite Hr. reflexivity.
Qed.

Lemma download_wallpaper_read_failure_witness :
  let w := sample_world "linux" 500 1000 page_ok
             (Ok {| read := Raise (URLError "connection reset") |})
             sample_soup (Ok tt) in
  download_wallpaper w "http://x/img.jpg" sample_dir "My Photo" =
    ([UrlOpen "http://x/img.jpg"; Print ("Downloading " +:+ "http://x/img.jpg");
      OpenWrite (outpath_of w "http://x/img.jpg" sample_dir "My Photo");
      Print ("URL Error: " +:+ "connection reset" +:+ " " +:+ "http://x/img.jpg")],
     Ok (outpath_of w "http://x/img.jpg" sample_dir "My Photo")).
Proof.
  intros w.
  apply (download_wallpaper_read_failure w _ _ _
           {| read := Raise (URLError "connection reset") |}); reflexivity.
Defined.

(** ** The file name, in general *)

(** A URL without any dot has itself as its last dot-segment: the whole
    URL is appended to the title as the extension. *)
Theorem outpath_of_url_without_dot w url dir title :
  mem_char "."%char url = false ->
  outpath_of w url dir title = os_path_join w dir (title +:+ "." +:+ url).
Proof.
  intros H. unfold outpath_of. now rewrite (split_without_sep _ _ H).
Qed.

Lemma outpath_of_url_without_dot_witness :
  let w := sample_world "linux" 500 1000 page_ok image_ok sample_soup (Ok tt) in
  outpath_of w "http://localhost/img" sample_dir "My Photo"
  = os_path_join w sample_dir ("My Photo" +:+ "." +:+ "http://localhost/img").
Proof. intros w. apply outpath_of_url_without_dot. reflexivity. Defined.

Lemma outpath_of_extension_witness :
  let w := sample_world "linux" 500 1000 page_ok image_ok sample_soup (Ok tt) in
  outpath_of w ("http://x.org/a.b/img" +:+ String "."%char "jpg") sample_dir "My Photo"
  = os_path_join w sample_dir ("My Photo" +:+ "." +:+ "jpg").
Proof. intros w. apply outpath_of_extension. reflexivity. Defined.

Lemma startswith_slash_append t s :
  startswith "/" t = true -> startswith "/" (t +:+ s) = true.
Proof.
  destruct t as [| c t]; [discriminate |]. unfold startswith.
  change (String c t +:+ s) with (String c (t +:+ s)). cbn [String.prefix].
  destruct (ascii_dec "/" c); [| discriminate].
  intros _. destruct (t +:+ s); reflexivity.
Qed.

(** With [posixpath.join], a title that starts with a slash makes the
    output path the title and the extension alone: the picture directory
    plays no part in it. *)
Theorem outpath_of_absolute_title w url dir title :
  os_path_join w = posixpath_join ->
  startswith "/" title = true ->
  outpath_of w url dir title
  = title +:+ "." +:+ List.last (split "."%char url) EmptyString.
Proof.
  intros Hj Ht. unfold outpath_of. rewrite Hj. unfold posixpath_join.
  now rewrite startswith_slash_append.
Qed.

Lemma outpath_of_absolute_title_witness :
  let w := sample_world "linux" 500 1000 page_ok image_ok sample_soup (Ok tt) in
  outpath_of w "http://x/img.jpg" sample_dir "/etc/cron.d/job"
  = "/etc/cron.d/job" +:+ "." +:+ List.last (split "."%char "http://x/img.jpg") EmptyString.
Proof. intros w. apply outpath_of_absolute_title; reflexivity. Defined.

(** ** The percentage, away from the halves *)

(** An integer [k] within less than [1/2 - 2^(-45)] of [100 * F / T] is
    what [int(round(F / T * 100))] evaluates to. *)
Lemma percentage_nearest F T k :
  0 < T -> 0 <= F <= T ->
  2 * Z.abs (k * T - 100 * F) * 2 ^ 44 < T * (2 ^ 44 - 1) ->
  exists x, int_truediv F T = Ok x /\
            py_round (float_mul x (float_of_int 100)) = Ok k.
Proof.
  intros HT HF Hk.
  destruct (percentage_in_range F T HT HF) as (x & p & Hx & Hp & _ & Hacc).
  exists x. split; [exact Hx |]. rewrite Hp. f_equal.
  assert (H44 : 2 ^ 44 = 17592186044416) by reflexivity.
  rewrite H44 in *.
  destruct (Z.eq_dec p k) as [E | NE]; [exact E | exfalso].
  assert (Hd : T <= Z.abs (p * T - k * T)).
  { replace (p * T - k * T) with ((p - k) * T) by ring.
    rewrite Z.abs_mul, (Z.abs_eq T) by lia.
    assert (1 <= Z.abs (p - k)) by lia. nia. }
  pose proof (Z.abs_triangle (p * T - 100 * F) (100 * F - k * T)) as Htri.
  replace (p * T - 100 * F + (100 * F - k * T)) with (p * T - k * T) in Htri
    by ring.
  replace (100 * F - k * T) with (- (k * T - 100 * F)) in Htri by ring.
  rewrite Z.abs_opp in Htri.
  lia.
Qed.

(** Whenever an integer [k] is within less than [1/2 - 2^(-45)] of the
    exact percentage [100 * F / T], [free_space] returns [k]: the floating
    point evaluation can differ from the nearest integer only next to a
    half. In particular a whole percentage is returned as it is. *)
Theorem free_space_nearest_integer m w dir F T k :
  free_space_query_reports m w dir F T ->
  0 < T -> 0 <= F <= T ->
  2 * Z.abs (k * T - 100 * F) * 2 ^ 44 < T * (2 ^ 44 - 1) ->
  free_space m w dir = ret (PyInt k).
Proof.
  intros Hq HT HF Hk.
  destruct (percentage_nearest F T k HT HF Hk) as (x & Hx & Hp).
  rewrite (free_space_of_report _ _ _ _ _ (query_reports_call _ _ _ _ _ Hq)).
  rewrite Hx. cbn [lift bind]. rewrite Hp. reflexivity.
Qed.

Lemma free_space_nearest_integer_witness :
  free_space linux_module
    (sample_world "linux" 1000 1000 page_ok image_ok sample_soup (Ok tt))
    sample_dir = ret (PyInt 100).
Proof.
  apply (free_space_nearest_integer _ _ _ (4096 * 1000) (4096 * 1000)).
  - exists {| f_bsize := 4096; f_bfree := 1000; f_blocks := 1000 |}.
    repeat split; reflexivity.
  - lia.
  - lia.
  - vm_compute. reflexivity.
Defined.

(** ** The driver around the disk space check *)

Lemma free_space_silent m w dir : fst (free_space m w dir) = [].
Proof.
  unfold free_space, call_get_free_bytes.
  destruct (_get_free_bytes m); cbn; try reflexivity.
  - unfold _get_free_bytes_win32.
    destruct (GetDiskFreeSpaceEx w dir) as [[T F] |]; cbn; [| reflexivity].
    destruct (int_truediv F T); cbn; [| reflexivity].
    destruct (py_round _); reflexivity.
  - unfold _get_free_bytes_default.
    destruct (os_statvfs w dir) as [st | e]; cbn.
    + destruct (int_truediv _ _); cbn; [| reflexivity].
      destruct (py_round _); reflexivity.
    + destruct (is_OSError e); reflexivity.
Qed.

(** An existing directory with fewer than about 0.5% of its bytes free
    reads as 0%, so the driver takes it for a missing directory: it prints
    that message and exits with code 1, whatever the minimum is. *)
Theorem nearly_full_disk_exit_1 m w cfg F T :
  free_space_query_reports m w (picture_dir cfg) F T ->
  0 <= F -> 200 * F * 2 ^ 44 < T * (2 ^ 44 - 1) ->
  free_space m w (picture_dir cfg) = ret (PyInt 0) /\
  set_random_wallpaper m w cfg =
    ([Print (picture_dir cfg +:+ " does not exist, please create.")],
     Raise (SystemExit 1)).
Proof.
  intros Hq HF Hlt.
  assert (H44 : 2 ^ 44 = 17592186044416) by reflexivity.
  assert (HT : 0 < T) by (rewrite H44 in Hlt; lia).
  assert (HFT : 0 <= F <= T) by (rewrite H44 in Hlt; lia).
  assert (Hk : 2 * Z.abs (0 * T - 100 * F) * 2 ^ 44 < T * (2 ^ 44 - 1)).
  { rewrite Z.mul_0_l, Z.sub_0_l, Z.abs_opp, Z.abs_eq by lia. lia. }
  destruct (percentage_nearest F T 0 HT HFT Hk) as (x & Hx & Hp).
  assert (Hfs : free_space m w (picture_dir cfg) = ret (PyInt 0)).
  { rewrite (free_space_of_report _ _ _ _ _ (query_reports_call _ _ _ _ _ Hq)).
    rewrite Hx. cbn [lift bind]. rewrite Hp. reflexivity. }
  split; [exact Hfs |]. now apply (driver_not_fs m w cfg (PyInt 0)).
Qed.

Lemma nearly_full_disk_exit_1_witness :
  let w := sample_world "linux" 4 1000 page_ok image_ok sample_soup (Ok tt) in
  free_space linux_module w sample_dir = ret (PyInt 0) /\
  set_random_wallpaper linux_module w sample_settings =
    ([Print (sample_dir +:+ " does not exist, please create.")],
     Raise (SystemExit 1)).
Proof.
  apply (nearly_full_disk_exit_1 linux_module _ sample_settings
           (4096 * 4) (4096 * 1000)).
  - exists {| f_bsize := 4096; f_bfree := 4; f_blocks := 1000 |}.
    repeat split; reflexivity.
  - lia.
  - vm_compute. reflexivity.
Defined.

Lemma driver_low_space_witness :
  let w := sample_world "linux" 250 1000 page_ok image_ok sample_soup (Ok tt) in
  set_random_wallpaper linux_module w sample_settings =
    ([Print ("Not enough free space in " +:+ sample_dir +:+ "! ("
               +:+ str_of_int 25 +:+ "% free)")],
     Raise (SystemExit 2)) /\
  List.filter is_network (fst (set_random_wallpaper linux_module w sample_settings))
    = [].
Proof.
  intros w. apply (driver_low_space linux_module w sample_settings 25).
  - vm_compute. reflexivity.
  - lia.
  - cbn. lia.
Defined.

(** The driver goes to the network only after [free_space] has returned a
    percentage that is not 0 and is above the minimum: a missing
    directory, a low or unreadable disk, or an exception of the check
    leave the network untouched. *)
Theorem driver_network_after_check m w cfg ev :
  In ev (fst (set_random_wallpaper m w cfg)) -> is_network ev = true ->
  exists p, free_space m w (picture_dir cfg) = ret (PyInt p) /\
            p <> 0 /\ free_space_minimum cfg < p.
Proof.
  unfold set_random_wallpaper.
  pose proof (free_space_silent m w (picture_dir cfg)) as Hs.
  destruct (free_space m w (picture_dir cfg)) as [t [fs | e]]; cbn in Hs; subst t.
  2: { cbn. intros []. }
  rewrite (bind_ret_l fs). destruct fs as [| p]; cbn [truthy negb].
  { cbn. intros [<- | []]. discriminate. }
  destruct (Z.eqb_spec p 0) as [-> | Hp]; cbn [negb].
  { cbn. intros [<- | []]. discriminate. }
  cbn [py_le]. destruct (Z.leb_spec p (free_space_minimum cfg)) as [Hle | Hlt].
  { cbn. intros [<- | []]. discriminate. }
  intros _ _. exists p. auto.
Qed.

Lemma driver_network_after_check_witness :
  let w := sample_world "linux" 500 1000 page_ok image_ok sample_soup (Ok tt) in
  exists p, free_space linux_module w (picture_dir sample_settings) = ret (PyInt p) /\
            p <> 0 /\ free_space_minimum sample_settings < p.
Proof.
  intros w.
  apply (driver_network_after_check linux_module w sample_settings
           (UrlOpen "http://x/img.jpg")).
  - vm_compute. auto.
  - reflexivity.
Defined.

Lemma driver_empty_url_exit_3_witness :
  snd (set_random_wallpaper linux_module
         (sample_world "linux" 500 1000 page_ok image_ok empty_url_soup (Ok tt))
         sample_settings)
  = Raise (SystemExit 3).
Proof.
  apply (driver_empty_url_exit_3 linux_module _ sample_settings 50
           {| read := Ok sample_page |} sample_page empty_url_soup "My Photo").
  - vm_compute. reflexivity.
  - lia.
  - cbn. lia.
  - reflexivity.
  - reflexivity.
  - reflexivity.
  - reflexivity.
  - reflexivity.
Defined.

(** ** From the download to the setter *)

(** Once the page has given a non-empty URL and a title, the driver hands
    the setter of the platform exactly the path [download_wallpaper]
    returned, which is the path computed from the title and the URL; this
    is so whenever the download returns, also after a transport error
    that left no file behind. Nothing else happens in between. *)
Theorem main_sets_downloaded_path w cfg m p url title path :
  load_module (sys_platform w) = Ok m ->
  free_space m w (picture_dir cfg) = ret (PyInt p) ->
  p <> 0 -> free_space_minimum cfg < p ->
  snd (get_wallpaper_details w (base_url cfg)) = Ok (URLDetail url title) ->
  url <> EmptyString ->
  snd (download_wallpaper w url (picture_dir cfg) title) = Ok path ->
  path = outpath_of w url (picture_dir cfg) title /\
  main w cfg =
    (fst (get_wallpaper_details w (base_url cfg))
       ++ fst (download_wallpaper w url (picture_dir cfg) title)
       ++ fst (call_set_wallpaper (set_wallpaper m) w path),
     snd (call_set_wallpaper (set_wallpaper m) w path)).
Proof.
  intros Hm Hfs Hp Hmin Hd Hurl Hdl. split.
  - pose proof (download_wallpaper_result w url (picture_dir cfg) title) as Hr.
    now rewrite Hdl in Hr.
  - unfold main. rewrite Hm. unfold lift. rewrite (bind_ret_l m).
    rewrite (driver_enough_space _ _ _ _ Hfs Hp Hmin).
    destruct (get_wallpaper_details w (base_url cfg)) as [t1 r1].
    cbn [snd] in Hd. subst r1. cbn [bind fst].
    destruct (String.eqb_spec url EmptyString) as [? | _]; [contradiction |].
    destruct (download_wallpaper w url (picture_dir cfg) title) as [t2 r2].
    cbn [snd] in Hdl. subst r2. cbn [bind fst].
    destruct (call_set_wallpaper (set_wallpaper m) w path) as [t3 r3].
    reflexivity.
Qed.

Lemma main_sets_downloaded_path_witness :
  let w := sample_world "darwin" 500 1000 page_ok (Raise (HTTPError 404))
             sample_soup (Ok tt) in
  let path := "/home/u/Pictures/NatGeoPics/My Photo.jpg" in
  path = outpath_of w "http://x/img.jpg" (picture_dir sample_settings) "My Photo" /\
  main w sample_settings =
    (fst (get_wallpaper_details w (base_url sample_settings))
       ++ fst (download_wallpaper w "http://x/img.jpg"
                 (picture_dir sample_settings) "My Photo")
       ++ fst (call_set_wallpaper (set_wallpaper darwin_module) w path),
     snd (call_set_wallpaper (set_wallpaper darwin_module) w path)).
Proof.
  intros w path.
  apply (main_sets_downloaded_path w sample_settings darwin_module 50).
  - vm_compute. reflexivity.
  - vm_compute. reflexivity.
  - lia.
  - cbn. lia.
  - vm_compute. reflexivity.
  - discriminate.
  - vm_compute. reflexivity.
Defined.

(** ** Bodies without the marker *)

Lemma prefix_append pat : forall l r,
  String.prefix pat l = true -> String.prefix pat (l +:+ r) = true.
Proof.
  induction pat as [| a pat IH]; intros l r H.
  - destruct (l +:+ r); reflexivity.
  - destruct l as [| c l]; [discriminate |].
    change (String c l +:+ r) with (String c (l +:+ r)).
    cbn [String.prefix] in H |- *.
    destruct (ascii_dec a c); [now apply IH | discriminate].
Qed.

Lemma contains_append_l pat l r :
  contains pat l = true -> contains pat (l +:+ r) = true.
Proof.
  induction l as [| c l IH]; intros H.
  - cbn [contains] in H. rewrite orb_false_r in H.
    destruct pat; [| discriminate].
    destruct (EmptyString +:+ r); reflexivity.
  - change (String c l +:+ r) with (String c (l +:+ r)).
    cbn [contains] in H |- *. apply orb_true_iff in H as [H | H];
      apply orb_true_iff; [left | right; now apply IH].
    now apply (prefix_append pat (String c l) r).
Qed.

Lemma contains_append_r pat l r :
  contains pat r = true -> contains pat (l +:+ r) = true.
Proof.
  intros H. induction l as [| c l IH]; [exact H |].
  change (String c l +:+ r) with (String c (l +:+ r)).
  cbn [contains]. apply orb_true_iff. now right.
Qed.

Lemma join_bytes_contains pat ls l :
  In l ls -> contains pat l = true -> contains pat (join_bytes ls) = true.
Proof.
  induction ls as [| l0 ls IH]; intros Hin H; [destruct Hin |].
  cbn [join_bytes fold_right]. destruct Hin as [-> | Hin].
  - now apply contains_append_l.
  - apply contains_append_r. now apply IH.
Qed.

Lemma lines_without_pattern pat body l :
  contains pat body = false -> In l (readlines body) -> contains pat l = false.
Proof.
  intros Hb Hin. destruct (contains pat l) eqn:Hl; [| reflexivity].
  rewrite <- (readlines_join body) in Hb.
  now rewrite (join_bytes_contains pat _ l Hin Hl) in Hb.
Qed.

(** A body in which [document.write] does not occur reaches the parser
    byte for byte. *)
Theorem sanitize_unmarked_body body :
  contains marker body = false -> sanitize body = body.
Proof.
  intros H. apply sanitize_clean. intros l Hin.
  now apply (lines_without_pattern marker body).
Qed.

Lemma sanitize_unmarked_body_witness :
  sanitize ("<html>" +:+ String newline "</html>")
  = "<html>" +:+ String newline "</html>".
Proof. apply sanitize_unmarked_body. reflexivity. Defined.

(** Filtering once is enough: filtering the filtered body changes
    nothing. *)
Theorem sanitize_idempotent body : sanitize (sanitize body) = sanitize body.
Proof.
  apply sanitize_clean. intros l Hin.
  apply (lines_without_pattern marker (sanitize body)); [| exact Hin].
  apply sanitize_no_marker.
Qed.

(** ** Rounding keeps the order *)

Lemma rne_div_mono n1 d1 n2 d2 :
  0 < d1 -> 0 < d2 -> n1 * d2 <= n2 * d1 ->
  rne_div n1 d1 <= rne_div n2 d2.
Proof.
  intros Hd1 Hd2 Hle. unfold rne_div.
  pose proof (Z.div_mod n1 d1 ltac:(lia)) as E1.
  pose proof (Z.mod_pos_bound n1 d1 Hd1) as R1.
  pose proof (Z.div_mod n2 d2 ltac:(lia)) as E2.
  pose proof (Z.mod_pos_bound n2 d2 Hd2) as R2.
  set (q1 := n1 / d1) in *. set (r1 := n1 mod d1) in *.
  set (q2 := n2 / d2) in *. set (r2 := n2 mod d2) in *.
  assert (Hq : q1 <= q2).
  { destruct (Z_le_gt_dec q1 q2) as [H | H]; [exact H | exfalso].
    assert (d1 * d2 * (q1 - q2) <= r2 * d1 - r1 * d2) by nia.
    assert (d1 * d2 <= d1 * d2 * (q1 - q2)) by nia.
    nia. }
  destruct (Z.eq_dec q1 q2) as [Heq | Hne].
  - assert (Hr : r1 * d2 <= r2 * d1) by nia.
    rewrite Heq in *.
    destruct (Z.compare_spec (2 * r1) d1) as [T1 | T1 | T1];
      destruct (Z.compare_spec (2 * r2) d2) as [T2 | T2 | T2];
      destruct (Z.even q2); try lia; exfalso; nia.
  - destruct (Z.compare_spec (2 * r1) d1); destruct (Z.compare_spec (2 * r2) d2);
      destruct (Z.even q1); destruct (Z.even q2); lia.
Qed.

(** [n / d < 2 ^ (ilog2_ratio n d + 1)]. *)
Lemma ilog2_ratio_below n d :
  0 < n -> 0 < d ->
  n * pow2 (- (ilog2_ratio n d + 1)) < d * pow2 (ilog2_ratio n d + 1).
Proof.
  intros Hn Hd. unfold ilog2_ratio, ratio_ge_pow2.
  destruct (Z.leb_spec (d * pow2 (Z.log2 n - Z.log2 d))
              (n * pow2 (- (Z.log2 n - Z.log2 d)))) as [_ | H].
  - pose proof (Z.log2_spec n Hn) as [_ Hn2].
    pose proof (Z.log2_spec d Hd) as [Hd1 _].
    pose proof (Z.log2_nonneg n) as Ha. pose proof (Z.log2_nonneg d) as Hb.
    set (a := Z.log2 n) in *. set (b := Z.log2 d) in *.
    replace (Z.succ a) with (a + 1) in Hn2 by lia.
    destruct (Z_le_gt_dec 0 (a - b + 1)) as [Hl | Hl].
    + rewrite (pow2_nonneg (a - b + 1)), pow2_nonpos by lia.
      assert (E : 2 ^ (a + 1) = 2 ^ b * 2 ^ (a - b + 1)).
      { rewrite <- Z.pow_add_r by lia. f_equal; lia. }
      assert (0 < 2 ^ (a - b + 1)) by (apply Z.pow_pos_nonneg; lia).
      nia.
    + rewrite (pow2_nonpos (a - b + 1)), pow2_nonneg by lia.
      assert (E : 2 ^ b = 2 ^ (a + 1) * 2 ^ (- (a - b + 1))).
      { rewrite <- Z.pow_add_r by lia. f_equal; lia. }
      assert (0 < 2 ^ (- (a - b + 1))) by (apply Z.pow_pos_nonneg; lia).
      nia.
  - replace (Z.log2 n - Z.log2 d - 1 + 1) with (Z.log2 n - Z.log2 d) by lia.
    exact H.
Qed.

Lemma ilog2_ratio_mono n1 d1 n2 d2 :
  0 < n1 -> 0 < d1 -> 0 < d2 -> n1 * d2 <= n2 * d1 ->
  ilog2_ratio n1 d1 <= ilog2_ratio n2 d2.
Proof.
  intros Hn1 Hd1 Hd2 Hle.
  assert (Hn2 : 0 < n2) by nia.
  apply ilog2_ratio_upper; try assumption.
  pose proof (ilog2_ratio_below n2 d2 Hn2 Hd2) as Hb.
  set (j := ilog2_ratio n2 d2 + 1) in *.
  pose proof (pow2_pos j). pose proof (pow2_pos (- j)).
  assert (n1 * pow2 (- j) * d2 <= n2 * pow2 (- j) * d1) by nia.
  assert (n2 * pow2 (- j) * d1 < d2 * pow2 j * d1) by nia.
  nia.
Qed.

(** Comparing [n / d] with [2^fl], once both are scaled by [2^(52 - fl)]. *)
Lemma scale_by_exponent n d fl :
  0 < d -> fl <= 52 ->
  (d * pow2 fl <= n * pow2 (- fl) -> 2 ^ 52 * d <= n * 2 ^ (52 - fl)) /\
  (n * pow2 (- fl) < d * pow2 fl -> n * 2 ^ (52 - fl) < 2 ^ 52 * d).
Proof.
  intros Hd Hfl.
  assert (Hp : 0 < 2 ^ (52 - fl)) by (apply Z.pow_pos_nonneg; lia).
  destruct (Z_le_gt_dec 0 fl) as [H | H].
  - rewrite (pow2_nonneg fl), pow2_nonpos by lia.
    assert (E : 2 ^ 52 = 2 ^ fl * 2 ^ (52 - fl)).
    { rewrite <- Z.pow_add_r by lia. f_equal; lia. }
    rewrite E. split; nia.
  - rewrite (pow2_nonpos fl), pow2_nonneg by lia.
    assert (E : 2 ^ (52 - fl) = 2 ^ 52 * 2 ^ (- fl)).
    { rewrite <- Z.pow_add_r by lia. f_equal; lia. }
    assert (0 < 2 ^ 52) by (apply Z.pow_pos_nonneg; lia).
    rewrite E. split; nia.
Qed.

(** What [round_ratio] computes on a positive ratio of at most [k]. *)
Lemma round_ratio_unfold n d k j :
  0 < d -> 0 < n -> n <= k * d -> k < 2 ^ (j + 1) -> 0 <= j <= 52 ->
  let e := Z.max (ilog2_ratio n d - 52) (-1074) in
  round_ratio n d = Finite (rne_div (n * 2 ^ (- e)) d) e /\ e <= j - 52.
Proof.
  intros Hd Hn Hk Hj Hj52 e.
  destruct (round_ratio_bounded n d k j Hd Hn Hk Hj Hj52)
    as (m' & e' & Hrr & He' & _).
  assert (Hfl : ilog2_ratio n d <= j).
  { apply ilog2_ratio_upper; try lia.
    rewrite pow2_nonpos, pow2_nonneg by lia. nia. }
  assert (He : e <= j - 52) by (unfold e; lia).
  split; [| exact He].
  rewrite Hrr. revert Hrr. unfold round_ratio.
  destruct (Z.eqb_spec n 0) as [-> | _]; [lia |].
  rewrite (Z.abs_eq n) by lia. fold e.
  rewrite (pow2_nonpos e), (pow2_nonneg (- e)), !Z.mul_1_r by lia.
  destruct (_ <=? _); [discriminate |]. now intros [= <- <-].
Qed.

(** On positive ratios of at most [k < 2^53], [round_ratio] keeps the
    order. *)
Lemma round_ratio_mono n1 d1 n2 d2 k j :
  0 < d1 -> 0 < d2 -> 0 < n1 -> n1 * d2 <= n2 * d1 ->
  n2 <= k * d2 -> k < 2 ^ (j + 1) -> 0 <= j <= 52 ->
  exists m1 e1 m2 e2,
    round_ratio n1 d1 = Finite m1 e1 /\ round_ratio n2 d2 = Finite m2 e2 /\
    m1 * 2 ^ (- e2) <= m2 * 2 ^ (- e1).
Proof.
  intros Hd1 Hd2 Hn1 Hle Hk Hj Hj52.
  assert (Hn2 : 0 < n2) by nia.
  assert (Hk1 : n1 <= k * d1) by nia.
  destruct (round_ratio_unfold n1 d1 k j Hd1 Hn1 Hk1 Hj Hj52) as [E1 He1].
  destruct (round_ratio_unfold n2 d2 k j Hd2 Hn2 Hk Hj Hj52) as [E2 He2].
  pose proof (ilog2_ratio_mono n1 d1 n2 d2 Hn1 Hd1 Hd2 Hle) as Hfl.
  set (fl1 := ilog2_ratio n1 d1) in *. set (fl2 := ilog2_ratio n2 d2) in *.
  set (e1 := Z.max (fl1 - 52) (-1074)) in *.
  set (e2 := Z.max (fl2 - 52) (-1074)) in *.
  cbv zeta in E1, E2.
  set (m1 := rne_div (n1 * 2 ^ (- e1)) d1) in *.
  set (m2 := rne_div (n2 * 2 ^ (- e2)) d2) in *.
  exists m1, e1, m2, e2. split; [exact E1 |]. split; [exact E2 |].
  assert (HA1 : 0 < 2 ^ (- e1)) by (apply Z.pow_pos_nonneg; lia).
  assert (HA2 : 0 < 2 ^ (- e2)) by (apply Z.pow_pos_nonneg; lia).
  destruct (Z.eq_dec e1 e2) as [Heq | Hne].
  - assert (Hm : m1 <= m2).
    { unfold m1, m2. rewrite Heq. apply rne_div_mono; try assumption. nia. }
    rewrite Heq. nia.
  - assert (Hlt : e1 < e2) by (unfold e1, e2; lia).
    assert (He2' : e2 = fl2 - 52) by (unfold e1, e2 in *; lia).
    assert (Hfl12 : fl1 + 1 <= fl2) by (unfold e1, e2 in *; lia).
    assert (Hfl2 : fl2 <= 52) by lia.
    assert (HR : 2 ^ (- e1) = 2 ^ (e2 - e1) * 2 ^ (- e2)).
    { rewrite <- Z.pow_add_r by lia. f_equal; lia. }
    assert (HRpos : 0 < 2 ^ (e2 - e1)) by (apply Z.pow_pos_nonneg; lia).
    assert (HA2' : 2 ^ (- e2) = 2 ^ (52 - fl2)) by (f_equal; lia).
    assert (H52 : 0 < 2 ^ 52) by (apply Z.pow_pos_nonneg; lia).
    (* the larger ratio rounds to at least [2^fl2] *)
    assert (Hm2 : 2 ^ 52 <= m2).
    { apply rne_div_ge; [assumption |]. rewrite HA2'.
      apply (scale_by_exponent n2 d2 fl2 Hd2 Hfl2).
      apply ilog2_ratio_lower; assumption. }
    (* the smaller one to at most [2^fl2] *)
    assert (Hq1 : n1 * pow2 (- fl2) < d1 * pow2 fl2).
    { pose proof (ilog2_ratio_below n1 d1 Hn1 Hd1) as Hb. fold fl1 in Hb.
      pose proof (pow2_ratio_mono (fl1 + 1) fl2 Hfl12) as Hm.
      pose proof (pow2_pos (fl1 + 1)). pose proof (pow2_pos (- (fl1 + 1))).
      pose proof (pow2_pos fl2). pose proof (pow2_pos (- fl2)).
      assert (n1 * pow2 (- (fl1 + 1)) * pow2 (- fl2)
              < d1 * pow2 (fl1 + 1) * pow2 (- fl2)) by nia.
      assert (d1 * (pow2 (fl1 + 1) * pow2 (- fl2))
              <= d1 * (pow2 fl2 * pow2 (- (fl1 + 1)))) by nia.
      assert (n1 * pow2 (- fl2) * pow2 (- (fl1 + 1))
              < d1 * pow2 fl2 * pow2 (- (fl1 + 1))) by lia.
      nia. }
    assert (Hq1' : n1 * 2 ^ (- e2) < 2 ^ 52 * d1).
    { rewrite HA2'. now apply (scale_by_exponent n1 d1 fl2 Hd1 Hfl2). }
    assert (Hm1 : m1 <= 2 ^ 52 * 2 ^ (e2 - e1)).
    { apply rne_div_le; [assumption |]. rewrite HR. nia. }
    rewrite HR. nia.
Qed.

Lemma round_ratio_mono_bounded n1 d1 n2 d2 k j :
  0 < d1 -> 0 < d2 -> 0 < n1 -> n1 * d2 <= n2 * d1 ->
  n2 <= k * d2 -> k < 2 ^ (j + 1) -> 0 <= j <= 52 ->
  exists m1 e1 m2 e2,
    round_ratio n1 d1 = Finite m1 e1 /\ round_ratio n2 d2 = Finite m2 e2 /\
    e1 <= j - 52 /\ e2 <= j - 52 /\
    0 <= m1 <= k * 2 ^ (- e1) /\ 0 <= m2 <= k * 2 ^ (- e2) /\
    m1 * 2 ^ (- e2) <= m2 * 2 ^ (- e1).
Proof.
  intros Hd1 Hd2 Hn1 Hle Hk Hj Hj52.
  assert (Hn2 : 0 < n2) by nia.
  assert (Hk1 : n1 <= k * d1) by nia.
  destruct (round_ratio_mono n1 d1 n2 d2 k j) as (m1 & e1 & m2 & e2 & E1 & E2 & Hm);
    try assumption.
  destruct (round_ratio_bounded n1 d1 k j Hd1 Hn1 Hk1 Hj Hj52)
    as (m1' & e1' & E1' & He1 & Hb1 & _).
  destruct (round_ratio_bounded n2 d2 k j Hd2 Hn2 Hk Hj Hj52)
    as (m2' & e2' & E2' & He2 & Hb2 & _).
  rewrite E1 in E1'. rewrite E2 in E2'.
  injection E1' as <- <-. injection E2' as <- <-.
  exists m1, e1, m2, e2. repeat split; assumption || lia.
Qed.

Lemma float_mul_100_unfold m e :
  e <= 0 ->
  float_mul (Finite m e) (float_of_int 100)
  = round_ratio (m * (100 * 2 ^ 46)) (2 ^ 46 * 2 ^ (- e)).
Proof.
  intros He. rewrite float_of_int_100. cbn [float_mul].
  rewrite (pow2_nonpos (e + -46)), (pow2_nonneg (- (e + -46))), Z.mul_1_r by lia.
  f_equal. rewrite <- Z.pow_add_r by lia. f_equal; lia.
Qed.

Lemma py_round_nonpos_exponent m e :
  e <= 0 -> py_round (Finite m e) = Ok (rne_div m (2 ^ (- e))).
Proof.
  intros He. cbn [py_round].
  now rewrite (pow2_nonpos e), (pow2_nonneg (- e)), Z.mul_1_r by lia.
Qed.

(** [int(round(F / T * 100))] does not decrease when [F] grows. *)
Lemma percentage_monotone F1 F2 T :
  0 < T -> 0 <= F1 <= F2 -> F2 <= T ->
  exists x1 p1 x2 p2,
    int_truediv F1 T = Ok x1 /\
    py_round (float_mul x1 (float_of_int 100)) = Ok p1 /\
    int_truediv F2 T = Ok x2 /\
    py_round (float_mul x2 (float_of_int 100)) = Ok p2 /\
    p1 <= p2.
Proof.
  intros HT HF1 HF2.
  destruct (Z.eq_dec F1 0) as [-> | HF10].
  - destruct (percentage_in_range F2 T HT ltac:(lia)) as (x2 & p2 & Hx2 & Hp2 & Hr2 & _).
    destruct (percentage_nearest 0 T 0 HT ltac:(lia)) as (x1 & Hx1 & Hp1).
    { assert (H44 : 2 ^ 44 = 17592186044416) by reflexivity.
      rewrite H44. change (0 * T) with 0. change (Z.abs (0 - 100 * 0)) with 0. lia. }
    exists x1, 0, x2, p2. repeat split; assumption || lia.
  - rewrite !int_truediv_pos by assumption.
    destruct (round_ratio_mono_bounded F1 T F2 T 1 0)
      as (m1 & e1 & m2 & e2 & -> & -> & He1 & He2 & Hb1 & Hb2 & Hm);
      try lia; [nia |].
    assert (HA1 : 0 < 2 ^ (- e1)) by (apply Z.pow_pos_nonneg; lia).
    assert (HA2 : 0 < 2 ^ (- e2)) by (apply Z.pow_pos_nonneg; lia).
    assert (H46 : 0 < 2 ^ 46) by (apply Z.pow_pos_nonneg; lia).
    assert (H : exists p1 p2,
               py_round (float_mul (Finite m1 e1) (float_of_int 100)) = Ok p1 /\
               py_round (float_mul (Finite m2 e2) (float_of_int 100)) = Ok p2 /\
               p1 <= p2).
    { rewrite !float_mul_100_unfold by lia.
      destruct (Z.eq_dec m1 0) as [-> | Hm1].
      - destruct (float_mul_100_bounded m2 e2 ltac:(lia) ltac:(lia))
          as (m2' & e2' & Hy2 & He2' & Hb2' & _).
        rewrite float_mul_100_unfold in Hy2 by lia. rewrite Hy2.
        destruct (py_round_bounded m2' e2' He2' Hb2') as (p2 & Hp2 & Hr2 & _).
        exists 0, p2. rewrite Hp2. unfold round_ratio.
        rewrite Z.mul_0_l, Z.eqb_refl. repeat split; try reflexivity. lia.
      - assert (G1 : 0 < 2 ^ 46 * 2 ^ (- e1)) by nia.
        assert (G2 : 0 < 2 ^ 46 * 2 ^ (- e2)) by nia.
        assert (G3 : 0 < m1 * (100 * 2 ^ 46)) by nia.
        assert (G4 : m1 * (100 * 2 ^ 46) * (2 ^ 46 * 2 ^ (- e2))
                     <= m2 * (100 * 2 ^ 46) * (2 ^ 46 * 2 ^ (- e1))).
        { replace (m1 * (100 * 2 ^ 46) * (2 ^ 46 * 2 ^ (- e2)))
            with (100 * 2 ^ 46 * 2 ^ 46 * (m1 * 2 ^ (- e2))) by ring.
          replace (m2 * (100 * 2 ^ 46) * (2 ^ 46 * 2 ^ (- e1)))
            with (100 * 2 ^ 46 * 2 ^ 46 * (m2 * 2 ^ (- e1))) by ring.
          apply Z.mul_le_mono_nonneg_l; [nia | exact Hm]. }
        assert (G5 : m2 * (100 * 2 ^ 46) <= 100 * (2 ^ 46 * 2 ^ (- e2))) by nia.
        assert (G6 : 100 < 2 ^ (6 + 1)) by (cbn; lia).
        destruct (round_ratio_mono_bounded _ _ _ _ 100 6 G1 G2 G3 G4 G5 G6
                    ltac:(lia))
          as (m1' & e1' & m2' & e2' & -> & -> & He1' & He2' & Hb1' & Hb2' & Hm').
        rewrite !py_round_nonpos_exponent by lia.
        eexists _, _. repeat split; try reflexivity.
        apply rne_div_mono; try (apply Z.pow_pos_nonneg; lia). exact Hm'. }
    destruct H as (p1 & p2 & Hp1 & Hp2 & Hle).
    exists (Finite m1 e1), p1, (Finite m2 e2), p2. repeat split; assumption.
Qed.

(** On a file system of [T] bytes, more free bytes never give a lower
    percentage; so a disk that passes the check of the driver (a
    percentage that is not 0 and is above the minimum) still passes it
    with more bytes free. *)
Theorem free_space_monotone m w1 w2 dir F1 F2 T minimum :
  free_space_query_reports m w1 dir F1 T ->
  free_space_query_reports m w2 dir F2 T ->
  0 < T -> 0 <= F1 <= F2 -> F2 <= T ->
  exists p1 p2,
    free_space m w1 dir = ret (PyInt p1) /\
    free_space m w2 dir = ret (PyInt p2) /\
    p1 <= p2 /\
    (p1 <> 0 /\ minimum < p1 -> p2 <> 0 /\ minimum < p2).
Proof.
  intros Hq1 Hq2 HT HF1 HF2.
  destruct (percentage_monotone F1 F2 T HT HF1 HF2)
    as (x1 & p1 & x2 & p2 & Hx1 & Hp1 & Hx2 & Hp2 & Hle).
  destruct (percentage_in_range F1 T HT ltac:(lia))
    as (x1' & p1' & Hx1' & Hp1' & Hr1 & _).
  rewrite Hx1 in Hx1'. injection Hx1' as <-.
  rewrite Hp1 in Hp1'. injection Hp1' as <-.
  exists p1, p2. repeat split; try lia.
  - rewrite (free_space_of_report _ _ _ _ _ (query_reports_call _ _ _ _ _ Hq1)).
    rewrite Hx1. cbn [lift bind]. rewrite Hp1. reflexivity.
  - rewrite (free_space_of_report _ _ _ _ _ (query_reports_call _ _ _ _ _ Hq2)).
    rewrite Hx2. cbn [lift bind]. rewrite Hp2. reflexivity.
Qed.

Lemma free_space_monotone_witness :
  let w bfree := sample_world "linux" bfree 1000 page_ok image_ok sample_soup (Ok tt) in
  exists p1 p2,
    free_space linux_module (w 574) sample_dir = ret (PyInt p1) /\
    free_space linux_module (w 575) sample_dir = ret (PyInt p2) /\
    p1 <= p2 /\
    (p1 <> 0 /\ 25 < p1 -> p2 <> 0 /\ 25 < p2).
Proof.
  intros w.
  apply (free_space_monotone linux_module (w 574) (w 575) sample_dir
           (4096 * 574) (4096 * 575) (4096 * 1000) 25).
  - exists {| f_bsize := 4096; f_bfree := 574; f_blocks := 1000 |}.
    repeat split; reflexivity.
  - exists {| f_bsize := 4096; f_bfree := 575; f_blocks := 1000 |}.
    repeat split; reflexivity.
  - lia.
  - lia.
  - lia.
Defined.

(** ** How the setters end *)

(** The setter a loaded module binds raises only in these cases: on linux
    when the tool cannot be launched (its exit status is never looked at);
    on darwin when [defaults] cannot be run or ends with a non-zero status,
    which becomes a [CalledProcessError]; on win32 never. *)
Theorem setter_raises_only p m w filename e :
  load_module p = Ok m ->
  snd (call_set_wallpaper (set_wallpaper m) w filename) = Raise e ->
  (p = "linux" /\
   subprocess_Popen w ["gconftool-2"; "-t"; "str"; "--set";
                       "/desktop/gnome/background/picture_filename"; filename]
     = Raise e) \/
  (p = "darwin" /\
   (subprocess_call w (darwin_cmd filename) = Raise e \/
    exists rc, subprocess_call w (darwin_cmd filename) = Ok rc /\ rc <> 0 /\
               e = CalledProcessError rc)).
Proof.
  intros Hm. apply load_module_cases in Hm.
  destruct Hm as [[-> ->] | [[-> ->] | [-> ->]]]; cbn [set_wallpaper linux_module
    win32_module darwin_module call_set_wallpaper].
  - unfold _set_wallpaper_linux. run_io.
    destruct (subprocess_Popen w _) as [[] | e']; run_io; [discriminate |].
    intros [= ->]. left. auto.
  - unfold _set_wallpaper_win32. run_io. discriminate.
  - unfold _set_wallpaper_darwin. fold (darwin_cmd filename). run_io.
    destruct (subprocess_call w (darwin_cmd filename)) as [rc | e']; run_io.
    + destruct (Z.eqb_spec rc 0) as [-> | Hrc]; run_io; [discriminate |].
      intros [= <-]. right. split; [reflexivity |]. right. exists rc. auto.
    + intros [= ->]. right. auto.
Qed.

Lemma setter_raises_only_witness :
  let w := {| sys_platform := "darwin";
              os_path_expanduser := fun p => p;
              os_path_join := posixpath_join;
              os_statvfs := fun _ => Raise (OSError "No such file or directory");
              GetDiskFreeSpaceEx := fun _ => None;
              urlopen := fun _ => page_ok;
              BeautifulSoup := fun _ => Ok sample_soup;
              open_wb := fun _ => Ok tt;
              write_file := fun _ _ => Ok tt;
              subprocess_Popen := fun _ => Ok tt;
              subprocess_call := fun _ => Ok 1 |} in
  ("darwin" = "linux" /\
   subprocess_Popen w ["gconftool-2"; "-t"; "str"; "--set";
                       "/desktop/gnome/background/picture_filename"; "/p.jpg"]
     = Raise (CalledProcessError 1)) \/
  ("darwin" = "darwin" /\
   (subprocess_call w (darwin_cmd "/p.jpg") = Raise (CalledProcessError 1) \/
    exists rc, subprocess_call w (darwin_cmd "/p.jpg") = Ok rc /\ rc <> 0 /\
               CalledProcessError 1 = CalledProcessError rc)).
Proof.
  intros w.
  apply (setter_raises_only "darwin" darwin_module w "/p.jpg"
           (CalledProcessError 1)).
  - vm_compute. reflexivity.
  - reflexivity.
Defined.
